(** * owid-catalog: the [Dataset] store of [owid/catalog/datasets.py]

    A dataset is a folder of data tables with its metadata at
    [index.json].  This development embeds the [Dataset] class and
    [checksum_file] over a model of the POSIX file system, of [hashlib]'s
    MD5 objects and of the few [os.path], [glob] and [pathlib] functions
    the class calls, and proves the properties of creation, table
    access, enumeration and checksumming. *)

From Stdlib Require Import NArith Ascii Strings.Byte.
From stdpp Require Import base list sorting strings gmap.


(** ** [hashlib.md5]

    The digest function is RFC 1321 on 32-bit words held in [N], with the
    wrap-around written out.  A hash object is modelled by the message it
    has been fed: [update] appends, [digest] hashes what was appended. *)

Module hashlib.

Definition mask32 : N := 0xFFFFFFFF.
Definition add32 (a b : N) : N := N.land (a + b) mask32.
Definition not32 (a : N) : N := N.lxor a mask32.
Definition rotl32 (x n : N) : N :=
  N.lor (N.land (N.shiftl x n) mask32) (N.shiftr x (32 - n)).

Definition K : list N :=
  [ 0xd76aa478; 0xe8c7b756; 0x242070db; 0xc1bdceee; 0xf57c0faf; 0x4787c62a;
    0xa8304613; 0xfd469501; 0x698098d8; 0x8b44f7af; 0xffff5bb1; 0x895cd7be;
    0x6b901122; 0xfd987193; 0xa679438e; 0x49b40821; 0xf61e2562; 0xc040b340;
    0x265e5a51; 0xe9b6c7aa; 0xd62f105d; 0x02441453; 0xd8a1e681; 0xe7d3fbc8;
    0x21e1cde6; 0xc33707d6; 0xf4d50d87; 0x455a14ed; 0xa9e3e905; 0xfcefa3f8;
    0x676f02d9; 0x8d2a4c8a; 0xfffa3942; 0x8771f681; 0x6d9d6122; 0xfde5380c;
    0xa4beea44; 0x4bdecfa9; 0xf6bb4b60; 0xbebfbc70; 0x289b7ec6; 0xeaa127fa;
    0xd4ef3085; 0x04881d05; 0xd9d4d039; 0xe6db99e5; 0x1fa27cf8; 0xc4ac5665;
    0xf4292244; 0x432aff97; 0xab9423a7; 0xfc93a039; 0x655b59c3; 0x8f0ccc92;
    0xffeff47d; 0x85845dd1; 0x6fa87e4f; 0xfe2ce6e0; 0xa3014314; 0x4e0811a1;
    0xf7537e82; 0xbd3af235; 0x2ad7d2bb; 0xeb86d391 ]%N.

Definition shifts : list N :=
  [ 7; 12; 17; 22; 7; 12; 17; 22; 7; 12; 17; 22; 7; 12; 17; 22;
    5; 9; 14; 20; 5; 9; 14; 20; 5; 9; 14; 20; 5; 9; 14; 20;
    4; 11; 16; 23; 4; 11; 16; 23; 4; 11; 16; 23; 4; 11; 16; 23;
    6; 10; 15; 21; 6; 10; 15; 21; 6; 10; 15; 21; 6; 10; 15; 21 ]%N.

(** The round function and the index of the message word of step [i]. *)
Definition mix (i : nat) (b c d : N) : N :=
  if (i <? 16)%nat then N.lor (N.land b c) (N.land (not32 b) d)
  else if (i <? 32)%nat then N.lor (N.land d b) (N.land (not32 d) c)
  else if (i <? 48)%nat then N.lxor b (N.lxor c d)
  else N.lxor c (N.lor b (not32 d)).

Definition word_index (i : nat) : nat :=
  if (i <? 16)%nat then i
  else if (i <? 32)%nat then (5 * i + 1) mod 16
  else if (i <? 48)%nat then (3 * i + 5) mod 16
  else (7 * i) mod 16.

Record state := State { sa : N; sb : N; sc : N; sd : N }.

Definition init : state :=
  State 0x67452301 0xefcdab89 0x98badcfe 0x10325476.

Definition step (M : list N) (st : state) (i : nat) : state :=
  let '(State a b c d) := st in
  let f := add32 (add32 (add32 (mix i b c d) a) (nth i K 0%N))
                 (nth (word_index i) M 0%N) in
  State d (add32 b (rotl32 f (nth i shifts 0%N))) b c.

Definition compress (st : state) (M : list N) : state :=
  let '(State a b c d) := foldl (step M) st (seq 0 64) in
  State (add32 (sa st) a) (add32 (sb st) b) (add32 (sc st) c) (add32 (sd st) d).

(** Little-endian packing of bytes into words and back. *)
Definition le_bytes (n : nat) (x : N) : list N :=
  map (fun k => N.land (N.shiftr x (8 * N.of_nat k)) 0xFF) (seq 0 n).

Fixpoint le_words (bs : list N) : list N :=
  match bs with
  | b0 :: b1 :: b2 :: b3 :: bs' =>
      (b0 + N.shiftl b1 8 + N.shiftl b2 16 + N.shiftl b3 24)%N :: le_words bs'
  | _ => []
  end.

(** Padding: a [0x80] byte, zeros up to 56 modulo 64, then the bit
    length on 64 bits. *)
Definition pad (msg : list N) : list N :=
  let len := length msg in
  let zeros := (64 + 55 - len mod 64) mod 64 in
  msg ++ [0x80%N] ++ replicate zeros 0%N
      ++ le_bytes 8 (N.land (8 * N.of_nat len) 0xFFFFFFFFFFFFFFFF).

Fixpoint blocks (fuel : nat) (ws : list N) (st : state) : state :=
  match fuel with
  | O => st
  | S fuel' =>
      match ws with
      | [] => st
      | _ => blocks fuel' (drop 16 ws) (compress st (take 16 ws))
      end
  end.

Definition to_byte (n : N) : byte :=
  match Byte.of_N n with Some b => b | None => x00 end.

Definition md5 (msg : list byte) : list byte :=
  let ws := le_words (pad (map Byte.to_N msg)) in
  let '(State a b c d) := blocks (length ws) ws init in
  map to_byte (le_bytes 4 a ++ le_bytes 4 b ++ le_bytes 4 c ++ le_bytes 4 d).

(** Lowercase hexadecimal, two digits a byte, as [hexdigest] prints. *)
Definition hexdigit (n : N) : ascii :=
  nth (N.to_nat n)
      ["0"; "1"; "2"; "3"; "4"; "5"; "6"; "7"; "8"; "9";
       "a"; "b"; "c"; "d"; "e"; "f"]%char "0"%char.

Fixpoint hex (bs : list byte) : string :=
  match bs with
  | [] => ""
  | b :: bs' =>
      String (hexdigit (N.shiftr (Byte.to_N b) 4))
        (String (hexdigit (N.land (Byte.to_N b) 0xF)) (hex bs'))
  end.

(** The hash object: the bytes fed so far. *)
Definition hash := list byte.
Definition new : hash := [].
Definition update (h : hash) (chunk : list byte) : hash := h ++ chunk.
Definition digest (h : hash) : list byte := md5 h.
Definition hexdigest (h : hash) : string := hex (md5 h).

End hashlib.

Definition bytes_of_string (s : string) : list byte :=
  String.list_byte_of_string s.

(** ** Exceptions and results

    The exceptions the module raises or lets through.  [raise Exception(msg)]
    is [Exception msg]; the others are the built-in classes raised by the
    standard library calls. *)

Inductive exn : Type :=
| Exception (msg : string)
| KeyError (key : string)
| ValueError (msg : string)
| FileNotFoundError (path : string)
| FileExistsError (path : string)
| IsADirectoryError (path : string)
| NotADirectoryError (path : string)
| DecodeError (path : string).

Inductive result (A : Type) : Type :=
| Ok (a : A)
| Raise (e : exn).
Arguments Ok {A} a.
Arguments Raise {A} e.

#[global] Instance result_ret : MRet result := fun _ a => Ok a.
#[global] Instance result_bind : MBind result := fun _ _ k r =>
  match r with
  | Ok a => k a
  | Raise e => Raise e
  end.

Definition is_ok {A} (r : result A) : bool :=
  match r with Ok _ => true | Raise _ => false end.

(** ** The file system

    Entries are keyed by their path, written as [pathlib] prints it (no
    [.] component, no doubled or trailing slash), so that the string the
    code builds for a file is the key of that file.  A path is looked
    up as it is written: the operating system would resolve [.], [..]
    and doubled separators first, so the statements that depend on what
    is found at a path take the path in that form.  The order of the
    list is the order in which the operating system enumerates the
    entries: new entries go to the end, and nothing but [sorted] makes a
    listing independent of it. *)

Inductive node : Type :=
| File (content : list byte)
| Dir.

Definition FS : Type := list (string * node).

Module os.

Fixpoint lookup (fs : FS) (p : string) : option node :=
  match fs with
  | [] => None
  | (k, n) :: fs' => if String.eqb k p then Some n else lookup fs' p
  end.

Fixpoint set (fs : FS) (p : string) (n : node) : FS :=
  match fs with
  | [] => [(p, n)]
  | (k, m) :: fs' =>
      if String.eqb k p then (k, n) :: fs' else (k, m) :: set fs' p n
  end.

Definition keys (fs : FS) : list string := map fst fs.

(** [os.path.exists] and [os.path.isdir]. *)
Definition exists_ (fs : FS) (p : string) : bool :=
  match lookup fs p with Some _ => true | None => false end.

Definition isdir (fs : FS) (p : string) : bool :=
  match lookup fs p with Some Dir => true | _ => false end.

(** [s.rpartition(c)]: the parts before and after the last [c]. *)
Fixpoint rsplit (c : ascii) (s : string) : option (string * string) :=
  match s with
  | "" => None
  | String a s' =>
      match rsplit c s' with
      | Some (h, t) => Some (String a h, t)
      | None => if Ascii.eqb a c then Some ("", s') else None
      end
  end.

(** [s.startswith(pre)]. *)
Fixpoint startswith (pre s : string) : bool :=
  match pre, s with
  | "", _ => true
  | String a pre', String b s' => Ascii.eqb a b && startswith pre' s'
  | String _ _, "" => false
  end.

Fixpoint occurs (c : ascii) (s : string) : bool :=
  match s with
  | "" => false
  | String a s' => Ascii.eqb a c || occurs c s'
  end.

(** The name of an entry of a directory: not empty, no separator. *)
Definition is_name (n : string) : bool :=
  negb (String.eqb n "") && negb (occurs "/" n).

Fixpoint endswith_slash (s : string) : bool :=
  match s with
  | "" => false
  | String a "" => Ascii.eqb a "/"
  | String _ s' => endswith_slash s'
  end.

(** [posixpath.join] of two components. *)
Definition join (a b : string) : string :=
  if startswith "/" b then b
  else if String.eqb a "" || endswith_slash a then a +:+ b
  else a +:+ "/" +:+ b.

(** The directory part, with its separator, and the last component:
    [p[:i]] and [p[i:]] for [i = p.rfind('/') + 1]. *)
Definition split (p : string) : string * string :=
  match rsplit "/" p with
  | Some (h, t) => (h +:+ "/", t)
  | None => ("", p)
  end.

(** [posixpath.dirname]: the directory part without its separator,
    the root excepted. *)
Definition dirname (p : string) : string :=
  match rsplit "/" p with
  | Some ("", _) => "/"
  | Some (h, _) => h
  | None => ""
  end.

(** The parent of an entry has to be a directory; the working
    directory [""] and the root are always there.  A parent that is
    not a directory is reported below as a missing one, which is the
    error of the operating system when no regular file stands above the
    path; with one, it reports that file as not a directory. *)
Definition parent_ok (fs : FS) (p : string) : bool :=
  let d := dirname p in
  String.eqb d "" || String.eqb d "/" || isdir fs d.

(** [open(p, "wb")] followed by a write of [bs]. *)
Definition write_file (fs : FS) (p : string) (bs : list byte) : result FS :=
  match lookup fs p with
  | Some Dir => Raise (IsADirectoryError p)
  | Some (File _) => Ok (set fs p (File bs))
  | None =>
      if parent_ok fs p then Ok (set fs p (File bs))
      else Raise (FileNotFoundError p)
  end.

(** [open(p, "rb")]: the stream of the bytes of the file. *)
Definition open_rb (fs : FS) (p : string) : result (list byte) :=
  match lookup fs p with
  | Some (File bs) => Ok bs
  | Some Dir => Raise (IsADirectoryError p)
  | None => Raise (FileNotFoundError p)
  end.

(** [istream.read(n)]: at most [n] bytes, and what is left. *)
Fixpoint read (n : N) (stream : list byte) : list byte * list byte :=
  match stream with
  | [] => ([], [])
  | b :: stream' =>
      if N.eqb n 0 then ([], stream)
      else let (chunk, rest) := read (N.pred n) stream' in (b :: chunk, rest)
  end.

Definition mkdir (fs : FS) (p : string) : result FS :=
  if exists_ fs p then Raise (FileExistsError p)
  else if String.eqb p "" || negb (parent_ok fs p)
       then Raise (FileNotFoundError p)
  else Ok (set fs p Dir).

(** [shutil.rmtree p] on a directory: the entry and all below it go. *)
Definition below (p k : string) : bool :=
  String.eqb k p || startswith (if endswith_slash p then p else p +:+ "/") k.

Definition rmtree (fs : FS) (p : string) : result FS :=
  if isdir fs p then Ok (filter (fun e => negb (below p (fst e))) fs)
  else if exists_ fs p then Raise (NotADirectoryError p)
  else Raise (FileNotFoundError p).

End os.

(** ** [fnmatch] and [glob]

    Shell patterns with [*] and [?].  [glob] expands the last component
    of its pattern in the directory that the rest of the pattern names:
    the entries of that directory whose name matches, hidden names left
    out, in the order of enumeration.  The library expands the directory
    part as well when [has_magic] holds of it; the model compares it as
    it is written, so [glob] here is [glob.glob] for the patterns whose
    directory part has no magic, and the statements about what is
    enumerated say so. *)

Module glob.

(** [magic_check = re.compile('([*?[])')]: one of the three characters
    that start a wildcard occurs. *)
Definition has_magic (s : string) : bool :=
  os.occurs "*" s || os.occurs "?" s || os.occurs "[" s.

(** What [*] may be followed by: [k] holds of some suffix of [s]. *)
Fixpoint star (k : string → bool) (s : string) : bool :=
  k s || match s with
         | "" => false
         | String _ s' => star k s'
         end.

Fixpoint fnmatch (pat name : string) {struct pat} : bool :=
  match pat with
  | "" => String.eqb name ""
  | String c pat' =>
      if Ascii.eqb c "*" then star (fnmatch pat') name
      else
        match name with
        | "" => false
        | String a name' =>
            (Ascii.eqb c "?" || Ascii.eqb c a) && fnmatch pat' name'
        end
  end.

Definition ishidden (name : string) : bool := os.startswith "." name.

Definition matches (pattern k : string) : bool :=
  let (dir, base) := os.split pattern in
  let (d, name) := os.split k in
  String.eqb d dir && negb (String.eqb name "")
  && negb (ishidden name) && fnmatch base name.

Definition glob (fs : FS) (pattern : string) : list string :=
  filter (fun k => matches pattern k = true) (os.keys fs).

End glob.

(** [sorted] on strings: the order of code points. *)
Definition sorted (l : list string) : list string := merge_sort String.le l.

(** ** [pathlib]

    [Path(p).with_suffix(suffix).as_posix()]: the suffix of the last
    component starts at its last dot, when that dot is neither its first
    nor its last character. *)

Module pathlib.

Definition with_suffix_name (name suffix : string) : string :=
  match os.rsplit "." name with
  | Some (stem, ext) =>
      if String.eqb stem "" || String.eqb ext "" then name +:+ suffix
      else stem +:+ suffix
  | None => name +:+ suffix
  end.

Definition with_suffix (p suffix : string) : result string :=
  let (dir, name) := os.split p in
  if String.eqb name "" then Raise (ValueError (p +:+ " has an empty name"))
  else Ok (dir +:+ with_suffix_name name suffix).

End pathlib.

(** ** Effects

    A call that writes takes the file system and gives it back, also
    when it raises: nothing is rolled back. *)

Definition IO (A : Type) : Type := FS → result A * FS.

#[global] Instance IO_ret : MRet IO := fun _ a fs => (Ok a, fs).
#[global] Instance IO_bind : MBind IO := fun _ _ k m fs =>
  match m fs with
  | (Ok a, fs') => k a fs'
  | (Raise e, fs') => (Raise e, fs')
  end.

Definition io_raise {A} (e : exn) : IO A := fun fs => (Raise e, fs).
Definition io_read {A} (f : FS → result A) : IO A := fun fs => (f fs, fs).
Definition io_test (f : FS → bool) : IO bool := fun fs => (Ok (f fs), fs).
Definition io_write (f : FS → result FS) : IO unit := fun fs =>
  match f fs with
  | Ok fs' => (Ok tt, fs')
  | Raise e => (Raise e, fs)
  end.

(** ** The collaborators *)

(** Modelled from the spec: the Table codec of [tables.py], which is not
    among the sources.  A table has a validated name; [write(table, path,
    format)] writes the table to the file at [path] and [read(path,
    format)] decodes the file at [path]. *)
Class TableCodec (Table : Type) : Type := {
  checked_name : Table → result string;
  feather_bytes : Table → list byte;
  csv_bytes : Table → list byte;
  parse_feather : list byte → option Table;
  parse_csv : list byte → option Table
}.

(** Modelled from the spec: the Metadata Index of [meta.py], which is not
    among the sources.  [document.save(path)] writes the document to the
    file at [path], [load(path)] decodes it, and [DatasetMeta()] is the
    default document. *)
Class MetaCodec (DatasetMeta : Type) : Type := {
  default_meta : DatasetMeta;
  meta_bytes : DatasetMeta → list byte;
  parse_meta : list byte → option DatasetMeta
}.

Definition decoded {A} (filename : string) (o : option A) : result A :=
  match o with
  | Some a => Ok a
  | None => Raise (DecodeError filename)
  end.

Section Tables.
Context {Table : Type} `{!TableCodec Table}.

(** Modelled from the spec: [Table.to_feather], [Table.to_csv],
    [Table.read_feather] and [Table.read_csv] of [tables.py].  Writing
    puts the encoded table in the file at [filename]; reading opens that
    file and decodes it, a file that does not decode being the codec's
    own error. *)
Definition to_feather (table : Table) (filename : string) (fs : FS) : result FS :=
  os.write_file fs filename (feather_bytes table).

Definition to_csv (table : Table) (filename : string) (fs : FS) : result FS :=
  os.write_file fs filename (csv_bytes table).

Definition read_feather (fs : FS) (filename : string) : result Table :=
  bs ← os.open_rb fs filename; decoded filename (parse_feather bs).

Definition read_csv (fs : FS) (filename : string) : result Table :=
  bs ← os.open_rb fs filename; decoded filename (parse_csv bs).
End Tables.

Section Meta.
Context {DatasetMeta : Type} `{!MetaCodec DatasetMeta}.

(** Modelled from the spec: [DatasetMeta.save] and [DatasetMeta.load] of
    [meta.py]. *)
Definition meta_save (m : DatasetMeta) (filename : string) (fs : FS) : result FS :=
  os.write_file fs filename (meta_bytes m).

Definition meta_load (fs : FS) (filename : string) : result DatasetMeta :=
  bs ← os.open_rb fs filename; decoded filename (parse_meta bs).
End Meta.

(** ** [checksum_file] *)

Definition chunk_size : N := 2 ^ 20.

(** The [while chunk:] loop; the fuel bounds the number of chunks. *)
Fixpoint read_loop (fuel : nat) (checksum : hashlib.hash)
    (chunk istream : list byte) : hashlib.hash :=
  match fuel with
  | O => checksum
  | S fuel' =>
      match chunk with
      | [] => checksum
      | _ =>
          let checksum := hashlib.update checksum chunk in
          let (chunk, istream) := os.read chunk_size istream in
          read_loop fuel' checksum chunk istream
      end
  end.

Definition checksum_file (fs : FS) (filename : string) : result hashlib.hash :=
  let checksum := hashlib.new in
  istream ← os.open_rb fs filename;
  let (chunk, rest) := os.read chunk_size istream in
  Ok (read_loop (length istream) checksum chunk rest).

(** ** The [Dataset] class *)

Record Dataset {DatasetMeta : Type} : Type := {
  path : string;
  metadata : DatasetMeta
}.
Arguments Dataset DatasetMeta : clear implicits.

Section DatasetClass.
Context {Table : Type} `{!TableCodec Table}.
Context {DatasetMeta : Type} `{!MetaCodec DatasetMeta}.

Local Abbreviation Dataset := (Dataset DatasetMeta).

Definition _index_file (self : Dataset) : string :=
  os.join (path self) "index.json".

Definition __init__ (fs : FS) (path : string) : result Dataset :=
  metadata ← meta_load fs (os.join path "index.json");
  Ok {| path := path; metadata := metadata |}.

Definition create_empty (path : string) (metadata : option DatasetMeta)
    : IO Dataset :=
  isd ← io_test (fun fs => os.isdir fs path);
  (if isd : bool then
     ex ← io_test (fun fs => os.exists_ fs (os.join path "index.json"));
     (if negb ex then
        io_raise (Exception ("refuse to overwrite non-dataset dir at: " +:+ path))
      else mret tt);;
     io_write (fun fs => os.rmtree fs path)
   else mret tt);;
  io_write (fun fs => os.mkdir fs path);;
  let index_file := os.join path "index.json" in
  io_write (meta_save default_meta index_file);;
  io_read (fun fs => __init__ fs path).

Definition add (self : Dataset) (table : Table) (format : string) : IO unit :=
  let allowed_formats := ["feather"; "csv"] in
  if negb (bool_decide (format ∈ allowed_formats)) then
    io_raise (Exception ("Format '" +:+ format +:+ "'' is not supported"))
  else
    name ← io_read (fun _ => checked_name table);
    let table_filename := os.join (path self) (name +:+ "." +:+ format) in
    if String.eqb format "feather" then io_write (to_feather table table_filename)
    else io_write (to_csv table table_filename).

Definition __getitem__ (fs : FS) (self : Dataset) (name : string)
    : result Table :=
  let table_filename := os.join (path self) (name +:+ ".feather") in
  if os.exists_ fs table_filename then read_feather fs table_filename
  else
    let table_filename := os.join (path self) (name +:+ ".csv") in
    if os.exists_ fs table_filename then read_csv fs table_filename
    else Raise (KeyError name).

Definition __contains__ (fs : FS) (self : Dataset) (name : string) : bool :=
  let feather_table_filename := os.join (path self) (name +:+ ".feather") in
  let csv_table_filename := os.join (path self) (name +:+ ".csv") in
  os.exists_ fs feather_table_filename || os.exists_ fs csv_table_filename.

Definition save (self : Dataset) : IO unit :=
  io_write (meta_save (metadata self) (_index_file self)).

Definition _data_files (fs : FS) (self : Dataset) : list string :=
  let feather_pattern := os.join (path self) "*.feather" in
  let csv_pattern := os.join (path self) "*.csv" in
  sorted (glob.glob fs feather_pattern ++ glob.glob fs csv_pattern).

Definition __len__ (fs : FS) (self : Dataset) : nat :=
  length (_data_files fs self).

(** The generator of [__iter__] is the list of the file names it has
    still to read; [__next__] reads the first of them, and [tolist]
    runs the generator to its end as [list(dataset)] does. *)
Definition __iter__ (fs : FS) (self : Dataset) : list string :=
  _data_files fs self.

Definition __next__ (fs : FS) (gen : list string)
    : result (option (Table * list string)) :=
  match gen with
  | [] => Ok None
  | filename :: gen' => t ← read_feather fs filename; Ok (Some (t, gen'))
  end.

Fixpoint tolist (fs : FS) (gen : list string) : result (list Table) :=
  match gen with
  | [] => Ok []
  | filename :: gen' =>
      t ← read_feather fs filename; ts ← tolist fs gen'; Ok (t :: ts)
  end.

(** The body of the [for data_file in self._data_files] loop of
    [checksum], over the files still to visit. *)
Fixpoint checksum_loop (fs : FS) (data_files : list string)
    (_hash : hashlib.hash) : result hashlib.hash :=
  match data_files with
  | [] => Ok _hash
  | data_file :: data_files' =>
      h ← checksum_file fs data_file;
      let _hash := hashlib.update _hash (hashlib.digest h) in
      metadata_file ← pathlib.with_suffix data_file ".meta.json";
      h ← checksum_file fs metadata_file;
      let _hash := hashlib.update _hash (hashlib.digest h) in
      checksum_loop fs data_files' _hash
  end.

Definition checksum (fs : FS) (self : Dataset) : result string :=
  let _hash := hashlib.new in
  h ← checksum_file fs (_index_file self);
  let _hash := hashlib.update _hash (hashlib.digest h) in
  _hash ← checksum_loop fs (_data_files fs self) _hash;
  Ok (hashlib.hexdigest _hash).

End DatasetClass.

(** ** The metadata properties

    The loop that runs when the module is imported: every field of
    [DatasetMeta] becomes an attribute of the [Dataset] class, unless the
    class has an attribute of that name already.  The class is the map
    from its attribute names to what they hold; the fields are those of
    [DatasetMeta.__dataclass_fields__], in their order. *)

(** Modelled from the spec: [metadata_property(k)] of [properties.py],
    the read and write passthrough to the field [k] of the metadata
    document.  What the class held before the loop is a [Builtin]. *)
Inductive attribute : Type :=
| Builtin
| MetadataProperty (field : string).

Definition hasattr (cls : gmap string attribute) (k : string) : bool :=
  bool_decide (is_Some (cls !! k)).

Definition setattr (cls : gmap string attribute) (k : string) (v : attribute)
    : gmap string attribute :=
  <[k := v]> cls.

(** The double quote of the message, built from its code. *)
Definition dquote : string := String (ascii_of_byte x22) "".

Fixpoint register_fields (fields : list string) (cls : gmap string attribute)
    : result unit * gmap string attribute :=
  match fields with
  | [] => (Ok tt, cls)
  | k :: fields' =>
      if hasattr cls k then
        (Raise (Exception ("metadata field " +:+ dquote +:+ k +:+ dquote
                           +:+ " would overwrite a Dataset built-in")),
         cls)
      else register_fields fields' (setattr cls k (MetadataProperty k))
  end.

(** ** A sample codec

    Concrete collaborators on which the class can be run: a table is a
    name and its cells, written after a one-byte tag of the format; a
    metadata document is kept as its JSON text. *)

Module sample.

Record table : Type := Table { tname : string; cells : list byte }.

Fixpoint pack (name : string) (rest : list byte) : list byte :=
  match name with
  | "" => x00 :: rest
  | String a name' => x01 :: byte_of_ascii a :: pack name' rest
  end.

Fixpoint unpack (bs : list byte) : option (string * list byte) :=
  match bs with
  | x00 :: rest => Some ("", rest)
  | x01 :: b :: bs' =>
      match unpack bs' with
      | Some (name, rest) => Some (String (ascii_of_byte b) name, rest)
      | None => None
      end
  | _ => None
  end.

Definition encode (tag : byte) (t : table) : list byte :=
  tag :: pack (tname t) (cells t).

Definition decode (tag : byte) (bs : list byte) : option table :=
  match bs with
  | b :: bs' =>
      if Byte.eqb b tag then
        match unpack bs' with
        | Some (name, rest) => Some (Table name rest)
        | None => None
        end
      else None
  | [] => None
  end.

#[global] Instance table_codec : TableCodec table := {|
  checked_name t :=
    if String.eqb (tname t) "" then Raise (ValueError "a table needs a name")
    else Ok (tname t);
  feather_bytes := encode x46;
  csv_bytes := encode x43;
  parse_feather := decode x46;
  parse_csv := decode x43
|}.

#[global] Instance meta_codec : MetaCodec (list byte) := {|
  default_meta := bytes_of_string "{}";
  meta_bytes m := m;
  parse_meta bs := Some bs
|}.

End sample.


(** ** The vocabulary of the statements *)

(** A directory part: empty, or ending with the separator. *)
Definition dirlike (d : string) : Prop := d = "" ∨ os.endswith_slash d = true.

(** The directory part of the paths that [join] builds below [d]. *)
Definition dirpath (d : string) : string :=
  if String.eqb d "" || os.endswith_slash d then d else d +:+ "/".

Definition wild_free (lit : string) : bool :=
  negb (os.occurs "*" lit) && negb (os.occurs "?" lit).

(** The name of a data file: a visible entry name ending in one of the
    two extensions. *)
Definition data_name (n : string) : Prop :=
  os.occurs "/" n = false ∧ glob.ishidden n = false ∧
  ∃ stem, n = stem +:+ ".feather" ∨ n = stem +:+ ".csv".

(** The decision of [data_name], for names that are given. *)
Definition data_nameb (n : string) : bool :=
  negb (os.occurs "/" n) && negb (glob.ishidden n)
  && (glob.fnmatch "*.feather" n || glob.fnmatch "*.csv" n).

(** The names of the files that [checksum] reads: the index, the data
    files and their sidecars. *)
Definition constituent_name (n : string) : Prop :=
  n = "index.json" ∨ data_name n ∨
  ∃ stem, n = stem +:+ ".meta.json" ∧
          (data_name (stem +:+ ".feather") ∨ data_name (stem +:+ ".csv")).

Definition hexdigits : list ascii :=
  ["0"; "1"; "2"; "3"; "4"; "5"; "6"; "7"; "8"; "9";
   "a"; "b"; "c"; "d"; "e"; "f"]%char.

Fixpoint lower_hex (s : string) : Prop :=
  match s with
  | "" => True
  | String a s' => a ∈ hexdigits ∧ lower_hex s'
  end.

(** What [add] writes for a format. *)
Definition table_bytes {Table : Type} `{!TableCodec Table}
    (format : string) (table : Table) : list byte :=
  if String.eqb format "feather" then feather_bytes table else csv_bytes table.

(** The names of the data files of a dataset, in the order of
    [_data_files]. *)
Definition entry_names {DatasetMeta : Type} (fs : FS)
    (self : Dataset DatasetMeta) : list string :=
  (λ k, (os.split k).2) <$> _data_files fs self.

(** Two results that are the same value, or are both exceptions: the
    same exception when [P] holds. *)
Definition similar {A : Type} (P : Prop) (r1 r2 : result A) : Prop :=
  match r1, r2 with
  | Ok a, Ok b => a = b
  | Raise e1, Raise e2 => P → e1 = e2
  | _, _ => False
  end.

(** The value of a result, the exception forgotten. *)
Definition value {A : Type} (r : result A) : option A :=
  match r with
  | Ok a => Some a
  | Raise _ => None
  end.

(** The digests of the files of a list, one after the other; the first
    file that cannot be read ends it. *)
Fixpoint digests (fs : FS) (files : list string) : result (list byte) :=
  match files with
  | [] => Ok []
  | p :: files' =>
      h ← checksum_file fs p;
      ds ← digests fs files';
      Ok (hashlib.digest h ++ ds)
  end.

(** The files that [checksum] reads, in the order in which it reads
    them, for the names of the data files. *)
Definition with_sidecar (d n : string) : list string :=
  [os.join d n; os.join d (pathlib.with_suffix_name n ".meta.json")].

Definition constituents (d : string) (names : list string) : list string :=
  os.join d "index.json" :: (names ≫= with_sidecar d).

(** The directory of the example: an index, one columnar table and its
    sidecar. *)
Definition dog_directory (A B C : list byte) (n : string) : option node :=
  if String.eqb n "index.json" then Some (File A)
  else if String.eqb n "dog.feather" then Some (File B)
  else if String.eqb n "dog.meta.json" then Some (File C)
  else None.

(** A file system that holds the directory [d] with the given entries,
    in the given order. *)
Definition dataset_dir (d : string) (entries : list (string * node)) : FS :=
  (d, Dir) :: map (λ e, (os.join d e.1, e.2)) entries.

(** Sample datasets and tables. *)
Definition dogs : Dataset unit := {| path := "d"; metadata := tt |}.
Definition cats : Dataset unit := {| path := "c"; metadata := tt |}.
Definition data : Dataset (list byte) :=
  {| path := "data"; metadata := bytes_of_string "{}" |}.
Definition dog : sample.table := sample.Table "dog" (bytes_of_string "woof").
Definition old_dog : sample.table := sample.Table "dog" (bytes_of_string "arf").

Definition dog_entries : list (string * node) :=
  [ ("dog.meta.json", File (bytes_of_string "c"));
    ("dog.feather", File (bytes_of_string "b"));
    ("index.json", File (bytes_of_string "a")) ].

Definition dog_entries_reordered : list (string * node) :=
  [ ("index.json", File (bytes_of_string "a"));
    ("dog.meta.json", File (bytes_of_string "c"));
    ("dog.feather", File (bytes_of_string "b")) ].

Definition orphan_entries : list (string * node) :=
  [ ("index.json", File (bytes_of_string "{}"));
    ("dog.csv", File (bytes_of_string "name,legs")) ].

Definition data_entries : list (string * node) :=
  [ ("index.json", File (bytes_of_string "{}"));
    ("dog.feather", File (feather_bytes old_dog));
    ("dog.meta.json", File (bytes_of_string "{}")) ].

(** A directory that is not a dataset, a dataset with one columnar
    table, and an empty dataset before and after a csv table is added. *)
Definition notes_fs : FS :=
  [("data", Dir); ("data/notes.txt", File (bytes_of_string "keep"))].
Definition data_fs : FS := dataset_dir "data" data_entries.
Definition empty_fs : FS :=
  dataset_dir "data" [("index.json", File (bytes_of_string "{}"))].
Definition csv_fs : FS := os.set empty_fs "data/dog.csv" (File (csv_bytes dog)).


(** [os.path.isfile], and the bytes of a file. *)
Definition is_file (fs : FS) (p : string) : bool :=
  match os.lookup fs p with Some (File _) => true | _ => false end.

Definition content (fs : FS) (p : string) : list byte :=
  match os.lookup fs p with Some (File bs) => bs | _ => [] end.

(** A directory path that [join] extends with a separator: not empty,
    no trailing separator.  It may still hold [.] or [..]; [normal]
    below excludes them. *)
Definition canonical (p : string) : Prop :=
  p ≠ "" ∧ os.endswith_slash p = false.

(** [p.split("/")]: the components of a path. *)
Fixpoint components (p : string) : list string :=
  match p with
  | "" => [""]
  | String a p' =>
      if Ascii.eqb a "/" then "" :: components p'
      else
        match components p' with
        | c :: cs => String a c :: cs
        | [] => [String a ""]
        end
  end.

(** The path without the separator of the root. *)
Definition relative (p : string) : string :=
  match p with
  | String a p' => if Ascii.eqb a "/" then p' else p
  | "" => p
  end.

(** A path in the form in which the file system keeps its keys: it is
    [canonical], and none of its components is empty, [.] or [..]. *)
Definition normal (p : string) : Prop :=
  canonical p ∧ Forall (λ c, c ∉ [""; "."; ".."]) (components (relative p)).

(** No component of a name steps up to the parent directory. *)
Definition stays_below (name : string) : Prop := ".." ∉ components name.

(** What [create_empty] leaves: the entries that are not at or below
    the path, then the new directory and its index. *)
Definition created `{!MetaCodec DatasetMeta} (fs : FS) (p : string) : FS :=
  filter (λ e, negb (os.below p e.1)) fs
  ++ [(p, Dir); (os.join p "index.json", File (meta_bytes default_meta))].

(** A class with two of the methods of [Dataset]. *)
Definition sample_class : gmap string attribute :=
  {[ "save" := Builtin; "checksum" := Builtin ]}.

(** More samples: a path taken by a file, a second handle, a handle
    with a title, and tables with a hidden and with an absolute name. *)
Definition file_fs : FS := [("data", File (bytes_of_string "not a directory"))].
Definition other : Dataset (list byte) :=
  {| path := "other"; metadata := bytes_of_string "{}" |}.
Definition titled : Dataset (list byte) :=
  {| path := "data"; metadata := bytes_of_string "{title: dogs}" |}.
Definition hidden_dog : sample.table :=
  sample.Table ".dog" (bytes_of_string "woof").
Definition stray_dog : sample.table :=
  sample.Table "/tmp/dog" (bytes_of_string "woof").
Definition hidden_fs : FS :=
  os.set empty_fs "data/.dog.feather" (File (feather_bytes hidden_dog)).
Definition titled_fs : FS :=
  os.set data_fs "data/index.json" (File (metadata titled)).

(** A dataset in which a directory has the name of a data file, beside
    a csv table without sidecar; a dataset in which the columnar file of
    a table is a directory; and a dataset with two tables, in two orders
    of enumeration. *)
Definition cluttered_entries : list (string * node) :=
  [ ("index.json", File (bytes_of_string "{}"));
    ("cat.csv", Dir);
    ("dog.csv", File (bytes_of_string "name,legs")) ].
Definition blocked_fs : FS :=
  dataset_dir "data"
    [("index.json", File (bytes_of_string "{}")); ("dog.feather", Dir)].
Definition pets_entries : list (string * node) :=
  [ ("index.json", File (bytes_of_string "a"));
    ("dog.feather", File (bytes_of_string "b"));
    ("dog.meta.json", File (bytes_of_string "c"));
    ("cat.csv", File (bytes_of_string "d"));
    ("cat.meta.json", File (bytes_of_string "e")) ].
Definition pets_entries_reordered : list (string * node) :=
  [ ("cat.meta.json", File (bytes_of_string "e"));
    ("dog.meta.json", File (bytes_of_string "c"));
    ("cat.csv", File (bytes_of_string "d"));
    ("index.json", File (bytes_of_string "a"));
    ("dog.feather", File (bytes_of_string "b")) ].

(** * Properties *)

(** ** Strings and paths *)

#[local] Arguments String.append !_ _ / : simpl nomatch.
#[local] Arguments Ascii.eqb : simpl never.

Section Strings.
Implicit Types (s t h n d : string) (c a : ascii).

Lemma append_nil_r s : s +:+ "" = s.
Proof. induction s as [|a s IH]; simpl; [done | by rewrite IH]. Qed.

Lemma append_assoc s t u : (s +:+ t) +:+ u = s +:+ t +:+ u.
Proof. induction s as [|a s IH]; simpl; [done | by rewrite IH]. Qed.

Lemma append_eq_nil s t : s +:+ t = "" → s = "" ∧ t = "".
Proof. destruct s; simpl; [done | discriminate]. Qed.

Lemma append_inj_r s t1 t2 : s +:+ t1 = s +:+ t2 → t1 = t2.
Proof. apply (inj (String.app s)). Qed.

Lemma occurs_app c s t :
  os.occurs c (s +:+ t) = os.occurs c s || os.occurs c t.
Proof.
  induction s as [|a s IH]; simpl; [done|].
  rewrite IH. by destruct (Ascii.eqb a c).
Qed.

Lemma rsplit_None c s : os.rsplit c s = None ↔ os.occurs c s = false.
Proof.
  induction s as [|a s IH]; simpl; [done|].
  destruct (os.rsplit c s) as [[h t]|].
  - split; [done|]. intros [_ H]%orb_false_iff.
    apply IH in H. discriminate.
  - destruct (Ascii.eqb a c); simpl; [done|]. by rewrite <- IH.
Qed.

Lemma rsplit_app c h t :
  os.occurs c t = false → os.rsplit c (h +:+ String c t) = Some (h, t).
Proof.
  intros Ht. induction h as [|a h IH]; simpl.
  - apply rsplit_None in Ht as ->. by rewrite Ascii.eqb_refl.
  - by rewrite IH.
Qed.

Lemma rsplit_Some c s h t :
  os.rsplit c s = Some (h, t) ↔ s = h +:+ String c t ∧ os.occurs c t = false.
Proof.
  split; [|intros [-> Ht]; by apply rsplit_app].
  revert h. induction s as [|a s IH]; intros h; simpl; [done|].
  destruct (os.rsplit c s) as [[h' t']|] eqn:E.
  - intros [= <- <-]. by destruct (IH h' eq_refl) as [-> Ht].
  - apply rsplit_None in E. destruct (Ascii.eqb a c) eqn:Ea; [|done].
    apply Ascii.eqb_eq in Ea as ->. by intros [= <- <-].
Qed.

Lemma endswith_slash_app h : os.endswith_slash (h +:+ "/") = true.
Proof.
  induction h as [|a h IH]; [done|].
  simpl. destruct (h +:+ "/") eqn:E; [by destruct h | done].
Qed.

Lemma endswith_slash_inv s :
  os.endswith_slash s = true → ∃ h, s = h +:+ "/".
Proof.
  induction s as [|a s IH]; [done|]. simpl. destruct s as [|b s].
  - intros ->%Ascii.eqb_eq. by exists "".
  - intros [h ->]%IH. by exists (String a h).
Qed.

Lemma split_spec k d n :
  os.split k = (d, n) → k = d +:+ n ∧ os.occurs "/" n = false ∧ dirlike d.
Proof.
  unfold os.split. destruct (os.rsplit "/" k) as [[h t]|] eqn:E.
  - intros [= <- <-]. apply rsplit_Some in E as [-> Ht].
    rewrite append_assoc. simpl. split_and!; [done..|].
    right. apply endswith_slash_app.
  - intros [= <- <-]. apply rsplit_None in E. split_and!; [done..|by left].
Qed.

Lemma split_app d n :
  dirlike d → os.occurs "/" n = false → os.split (d +:+ n) = (d, n).
Proof.
  intros [->|[h ->]%endswith_slash_inv] Hn; unfold os.split.
  - simpl. by apply rsplit_None in Hn as ->.
  - rewrite append_assoc. simpl.
    by rewrite (proj2 (rsplit_Some "/" (h +:+ String "/" n) h n)).
Qed.

Lemma dirpath_dirlike d : dirlike (dirpath d).
Proof.
  unfold dirpath, dirlike. destruct (String.eqb_spec d "") as [->|_]; simpl.
  - by left.
  - destruct (os.endswith_slash d) eqn:E; right; [done|].
    apply endswith_slash_app.
Qed.

Lemma startswith_slash s :
  os.startswith "/" s = true → os.occurs "/" s = true.
Proof.
  destruct s as [|a s]; simpl; [done|].
  rewrite andb_true_r, (Ascii.eqb_sym "/" a). by intros ->.
Qed.

Lemma join_relative d t :
  os.startswith "/" t = false → os.join d t = dirpath d +:+ t.
Proof.
  intros Ht. unfold os.join, dirpath. rewrite Ht.
  destruct (String.eqb d "" || os.endswith_slash d); [done|].
  by rewrite append_assoc.
Qed.

Lemma join_name d n :
  os.occurs "/" n = false → os.join d n = dirpath d +:+ n.
Proof.
  intros Hn. apply join_relative.
  destruct (os.startswith "/" n) eqn:E; [|done].
  apply startswith_slash in E. congruence.
Qed.

Lemma split_join d n :
  os.occurs "/" n = false → os.split (os.join d n) = (dirpath d, n).
Proof.
  intros Hn. rewrite join_name by done.
  by apply split_app; [apply dirpath_dirlike|].
Qed.

End Strings.

(** ** Patterns and enumeration *)

Section Patterns.
Implicit Types (s t n d k lit stem : string) (fs : FS).

Lemma fnmatch_literal lit s :
  wild_free lit = true → glob.fnmatch lit s = String.eqb lit s.
Proof.
  unfold wild_free. revert s. induction lit as [|c lit IH]; intros s.
  - intros _. simpl. apply String.eqb_sym.
  - simpl. destruct (Ascii.eqb_spec c "*") as [->|Hs]; [done|].
    destruct (Ascii.eqb_spec c "?") as [->|Hq]; [by rewrite andb_false_r|].
    simpl. intros H. destruct s as [|a s]; [done|].
    by rewrite IH.
Qed.

Lemma star_spec (f : string → bool) s :
  glob.star f s = true ↔ ∃ pre suf, s = pre +:+ suf ∧ f suf = true.
Proof.
  induction s as [|a s IH]; simpl.
  - rewrite orb_false_r. split.
    + intros H. by exists "", "".
    + intros (pre & suf & H & Hf). symmetry in H.
      by apply append_eq_nil in H as [_ ->].
  - rewrite orb_true_iff, IH. split.
    + intros [H|(pre & suf & -> & Hf)].
      * by exists "", (String a s).
      * by exists (String a pre), suf.
    + intros (pre & suf & H & Hf). destruct pre as [|b pre]; simpl in H.
      * left. by rewrite H.
      * injection H as -> ->. right. by exists pre, suf.
Qed.

Lemma fnmatch_extension lit n :
  wild_free lit = true →
  glob.fnmatch (String "*" lit) n = true ↔ ∃ stem, n = stem +:+ lit.
Proof.
  intros Hlit. simpl. rewrite star_spec. split.
  - intros (pre & suf & -> & H). rewrite fnmatch_literal in H by done.
    apply String.eqb_eq in H as ->. by exists pre.
  - intros [stem ->]. exists stem, lit. split; [done|].
    rewrite fnmatch_literal by done. apply String.eqb_refl.
Qed.

Lemma elem_of_glob fs d lit k :
  wild_free lit = true → os.occurs "/" lit = false → lit ≠ "" →
  k ∈ glob.glob fs (os.join d (String "*" lit)) ↔
  k ∈ os.keys fs ∧
  ∃ n, k = os.join d n ∧ os.occurs "/" n = false ∧
       glob.ishidden n = false ∧ ∃ stem, n = stem +:+ lit.
Proof.
  intros Hw Hl Hne. unfold glob.glob. rewrite list_elem_of_filter.
  unfold glob.matches. rewrite split_join by done.
  destruct (os.split k) as [d' n] eqn:Ek.
  rewrite !andb_true_iff, !negb_true_iff, fnmatch_extension by done.
  split.
  - intros [(((Hd & Hn) & Hh) & Hm) Hk]. split; [done|].
    apply String.eqb_eq in Hd as ->.
    apply split_spec in Ek as (-> & Hs & _).
    exists n. by rewrite join_name.
  - intros [Hk (n' & -> & Hs & Hh & stem & ->)]. split; [|done].
    rewrite split_join in Ek by done. injection Ek as <- <-.
    rewrite String.eqb_refl. split_and!; [done| |done|by exists stem].
    apply String.eqb_neq. by intros [-> E]%append_eq_nil.
Qed.

Lemma sorted_elem_of (l : list string) k : k ∈ sorted l ↔ k ∈ l.
Proof. unfold sorted. by rewrite merge_sort_Permutation. Qed.

Lemma sorted_sorted (l : list string) : StronglySorted String.le (sorted l).
Proof. apply StronglySorted_merge_sort; apply _. Qed.

Lemma sorted_NoDup (l : list string) : NoDup l → NoDup (sorted l).
Proof. unfold sorted. by rewrite merge_sort_Permutation. Qed.

(** Two listings of the same entries are sorted to the same list. *)
Lemma sorted_permutation (l1 l2 : list string) :
  l1 ≡ₚ l2 → sorted l1 = sorted l2.
Proof.
  intros Hp. apply (StronglySorted_unique String.le);
    [apply sorted_sorted..|].
  unfold sorted. by rewrite !merge_sort_Permutation.
Qed.

End Patterns.

(** ** Entries *)

Section Entries.
Implicit Types (s t n d k p stem : string) (fs : FS).

Lemma exists_keys fs p : os.exists_ fs p = true ↔ p ∈ os.keys fs.
Proof.
  unfold os.exists_, os.keys. induction fs as [|[k x] fs IH]; simpl.
  - split; [done | by intros ?%elem_of_nil].
  - rewrite elem_of_cons. destruct (String.eqb_spec k p) as [->|Hne].
    + split; [by left | done].
    + rewrite IH. split; [by right | by intros [->|?]].
Qed.

Lemma exists_lookup fs p : os.exists_ fs p = false ↔ os.lookup fs p = None.
Proof. unfold os.exists_. by destruct (os.lookup fs p). Qed.

Lemma lookup_set fs p q x :
  os.lookup (os.set fs p x) q =
    if String.eqb p q then Some x else os.lookup fs q.
Proof.
  induction fs as [|[k y] fs IH]; simpl.
  - by destruct (String.eqb p q).
  - destruct (String.eqb_spec k p) as [->|Hkp]; simpl.
    + by destruct (String.eqb p q).
    + rewrite IH. destruct (String.eqb_spec k q) as [->|Hkq]; [|done].
      by destruct (String.eqb_spec p q) as [->|_].
Qed.

Lemma keys_set fs p x :
  os.keys (os.set fs p x) =
    if os.exists_ fs p then os.keys fs else os.keys fs ++ [p].
Proof.
  unfold os.keys, os.exists_. induction fs as [|[k y] fs IH]; simpl; [done|].
  destruct (String.eqb_spec k p) as [->|Hkp]; simpl; [done|].
  rewrite IH. by destruct (os.lookup fs p).
Qed.

(** Writing keeps the keys of the file system distinct. *)
Lemma set_NoDup fs p x : NoDup (os.keys fs) → NoDup (os.keys (os.set fs p x)).
Proof.
  intros Hnd. rewrite keys_set. destruct (os.exists_ fs p) eqn:E; [done|].
  apply NoDup_app. split_and!; [done| |apply NoDup_singleton].
  intros k Hk ->%list_elem_of_singleton. apply exists_keys in Hk. congruence.
Qed.

Lemma write_file_NoDup fs p bs fs' :
  NoDup (os.keys fs) → os.write_file fs p bs = Ok fs' → NoDup (os.keys fs').
Proof.
  intros Hnd. unfold os.write_file.
  destruct (os.lookup fs p) as [[old|]|]; [|done|].
  - intros [= <-]. by apply set_NoDup.
  - destruct (os.parent_ok fs p); [|done]. intros [= <-]. by apply set_NoDup.
Qed.

Lemma is_name_spec n : os.is_name n = true ↔ n ≠ "" ∧ os.occurs "/" n = false.
Proof.
  unfold os.is_name. rewrite andb_true_iff, !negb_true_iff.
  by rewrite String.eqb_neq.
Qed.

Lemma extension_inj s1 s2 e1 e2 :
  os.occurs "." e1 = false → os.occurs "." e2 = false →
  s1 +:+ String "." e1 = s2 +:+ String "." e2 → s1 = s2 ∧ e1 = e2.
Proof.
  intros H1 H2 E. apply (rsplit_app "." s1) in H1.
  apply (rsplit_app "." s2) in H2. rewrite E, H2 in H1.
  by injection H1 as -> ->.
Qed.

Lemma data_name_is_name n : data_name n → os.is_name n = true.
Proof.
  intros (Hs & _ & stem & [->| ->]); apply is_name_spec; split; try done;
    by intros [_ ?]%append_eq_nil.
Qed.

Lemma data_name_stem n :
  data_name n →
  ∃ stem ext, n = stem +:+ String "." ext ∧ stem ≠ "" ∧
    os.occurs "/" stem = false ∧ (ext = "feather" ∨ ext = "csv").
Proof.
  intros (Hs & Hh & stem & Hn).
  assert (stem ≠ "") as Hne by (intros ->; by destruct Hn as [->| ->]).
  assert (os.occurs "/" stem = false) as Hst.
  { destruct Hn as [->| ->]; rewrite occurs_app in Hs;
      by apply orb_false_iff in Hs as [? _]. }
  destruct Hn as [->| ->]; [exists stem, "feather" | exists stem, "csv"];
    split_and!; auto.
Qed.

Lemma data_nameb_spec n : data_nameb n = true ↔ data_name n.
Proof.
  unfold data_nameb, data_name.
  rewrite !andb_true_iff, !negb_true_iff, orb_true_iff.
  rewrite !fnmatch_extension by done. split.
  - intros [[Hs Hh] [[stem ->]|[stem ->]]]; split_and!; eauto.
  - intros (Hs & Hh & stem & [->| ->]); split_and!; eauto.
Qed.

(** The sidecar of a data file, as [with_suffix] finds it. *)
Lemma with_suffix_data d stem ext suffix :
  dirlike d → os.occurs "/" stem = false → stem ≠ "" →
  os.occurs "/" ext = false → os.occurs "." ext = false → ext ≠ "" →
  pathlib.with_suffix (d +:+ stem +:+ String "." ext) suffix
  = Ok (d +:+ stem +:+ suffix).
Proof.
  intros Hd Hs Hne Hes Hed Hee. unfold pathlib.with_suffix.
  rewrite split_app; [|done|].
  2:{ rewrite occurs_app, Hs. simpl. by rewrite Hes. }
  destruct (String.eqb_spec (stem +:+ String "." ext) "") as [E|_].
  { by apply append_eq_nil in E as [_ ?]. }
  unfold pathlib.with_suffix_name. rewrite rsplit_app by done.
  apply String.eqb_neq in Hne as ->. by apply String.eqb_neq in Hee as ->.
Qed.

Lemma sidecar_of_data_file n :
  data_name n →
  ∃ stem, os.is_name (stem +:+ ".meta.json") = true ∧
    (n = stem +:+ ".feather" ∨ n = stem +:+ ".csv") ∧
    ∀ d, pathlib.with_suffix (os.join d n) ".meta.json"
         = Ok (os.join d (stem +:+ ".meta.json")).
Proof.
  intros Hn. pose proof Hn as (Hsl & _ & _).
  destruct (data_name_stem n Hn) as (stem & ext & -> & Hne & Hs & Hext).
  exists stem.
  assert (os.occurs "/" (stem +:+ ".meta.json") = false) as Hmeta
    by (by rewrite occurs_app, Hs).
  split_and!.
  - apply is_name_spec. split; [|done]. by intros [? _]%append_eq_nil.
  - destruct Hext as [->| ->]; auto.
  - intros d. rewrite !join_name by done.
    apply with_suffix_data; [apply dirpath_dirlike|done..| | |];
      by destruct Hext as [->| ->].
Qed.

End Entries.

(** ** Digests *)

Section Digests.

Lemma md5_length (msg : list byte) : length (hashlib.md5 msg) = 16.
Proof. unfold hashlib.md5. by destruct (hashlib.blocks _ _ _). Qed.

Lemma hexdigit_lower (n : N) : hashlib.hexdigit n ∈ hexdigits.
Proof.
  unfold hashlib.hexdigit. fold hexdigits.
  destruct (decide (N.to_nat n < length hexdigits)) as [Hlt|Hge].
  - apply list_elem_of_In, nth_In, Hlt.
  - rewrite nth_overflow by lia. by left.
Qed.

Lemma hex_length (bs : list byte) :
  String.length (hashlib.hex bs) = 2 * length bs.
Proof. induction bs as [|b bs IH]; simpl; [done | rewrite IH; lia]. Qed.

Lemma hex_lower (bs : list byte) : lower_hex (hashlib.hex bs).
Proof.
  induction bs as [|b bs IH]; simpl; [done|].
  split_and!; [apply hexdigit_lower..|done].
Qed.

Lemma hexdigest_canonical (h : hashlib.hash) :
  String.length (hashlib.hexdigest h) = 32 ∧ lower_hex (hashlib.hexdigest h).
Proof.
  unfold hashlib.hexdigest. split; [|apply hex_lower].
  by rewrite hex_length, md5_length.
Qed.

(** [read] splits the stream, and gives a chunk as long as bytes are
    left. *)
Lemma read_split (n : N) (stream : list byte) :
  (os.read n stream).1 ++ (os.read n stream).2 = stream.
Proof.
  revert n. induction stream as [|b stream IH]; intros n; simpl; [done|].
  destruct (N.eqb n 0); [done|].
  specialize (IH (N.pred n)). destruct (os.read (N.pred n) stream).
  simpl in *. by rewrite IH.
Qed.

Lemma read_progress (n : N) (stream : list byte) :
  n ≠ 0%N → (os.read n stream).1 = [] → stream = [].
Proof.
  intros Hn. destruct stream as [|b stream]; simpl; [done|].
  apply N.eqb_neq in Hn as ->.
  by destruct (os.read (N.pred n) stream).
Qed.

(** The loop feeds the hash object the whole stream. *)
Lemma read_loop_all (fuel : nat) (h : hashlib.hash) (chunk rest : list byte) :
  length (chunk ++ rest) ≤ fuel → (chunk = [] → rest = []) →
  read_loop fuel h chunk rest = h ++ chunk ++ rest.
Proof.
  revert h chunk rest. induction fuel as [|fuel IH]; intros h chunk rest Hlen He.
  - destruct chunk; [|simpl in Hlen; lia]. rewrite He by done.
    simpl. by rewrite app_nil_r.
  - simpl. destruct chunk as [|b chunk].
    { rewrite He by done. simpl. by rewrite app_nil_r. }
    pose proof (read_split chunk_size rest) as Hs.
    pose proof (read_progress chunk_size rest) as Hp.
    destruct (os.read chunk_size rest) as [chunk' rest']. simpl in *.
    rewrite IH.
    + unfold hashlib.update. by rewrite <- Hs, <- !app_assoc.
    + rewrite <- Hs in Hlen. rewrite !length_app in *. lia.
    + intros ->. specialize (Hp ltac:(done) eq_refl). subst rest.
      by destruct rest'.
Qed.

Lemma checksum_file_File (fs : FS) (p : string) (bs : list byte) :
  os.lookup fs p = Some (File bs) → checksum_file fs p = Ok bs.
Proof.
  intros Hp. unfold checksum_file, os.open_rb. rewrite Hp. simpl.
  pose proof (read_split chunk_size bs) as Hs.
  pose proof (read_progress chunk_size bs) as Hr.
  destruct (os.read chunk_size bs) as [chunk rest]. simpl in *.
  rewrite read_loop_all.
  - simpl. by rewrite Hs.
  - by rewrite Hs.
  - intros ->. specialize (Hr ltac:(done) eq_refl). subst bs.
    by destruct rest.
Qed.

Lemma checksum_file_None (fs : FS) (p : string) :
  os.lookup fs p = None → checksum_file fs p = Raise (FileNotFoundError p).
Proof. intros Hp. unfold checksum_file, os.open_rb. by rewrite Hp. Qed.

Lemma checksum_file_Dir (fs : FS) (p : string) :
  os.lookup fs p = Some Dir → checksum_file fs p = Raise (IsADirectoryError p).
Proof. intros Hp. unfold checksum_file, os.open_rb. by rewrite Hp. Qed.

End Digests.

(** ** Creation *)

Section Creation.
Context {DatasetMeta : Type} `{!MetaCodec DatasetMeta}.

(** C1: on an existing directory with nothing at its index path
    [index.json], [create_empty] raises the refusal error and leaves the
    file system, hence every entry of the directory, as it was. *)
Theorem create_empty_refuses_non_dataset
    (fs : FS) (path : string) (metadata : option DatasetMeta) :
  os.isdir fs path = true →
  os.exists_ fs (os.join path "index.json") = false →
  create_empty path metadata fs
  = (Raise (Exception ("refuse to overwrite non-dataset dir at: " +:+ path)),
     fs).
Proof.
  intros Hdir Hindex. unfold create_empty, mbind, IO_bind, io_test.
  by rewrite Hdir, Hindex.
Qed.

End Creation.

Lemma create_empty_refuses_non_dataset_witness :
  create_empty (DatasetMeta := list byte) "data" None notes_fs
  = (Raise (Exception "refuse to overwrite non-dataset dir at: data"), notes_fs).
Proof.
  apply (create_empty_refuses_non_dataset
           (DatasetMeta := list byte) notes_fs "data" None);
    reflexivity.
Defined.

(** ** Table access *)

Section Access.
Context {Table : Type} `{!TableCodec Table}.
Context {DatasetMeta : Type}.
Implicit Types (fs : FS) (self : Dataset DatasetMeta) (name key p : string).

Lemma read_feather_not_KeyError fs p key :
  os.exists_ fs p = true → read_feather fs p ≠ Raise (KeyError key).
Proof.
  unfold read_feather, os.open_rb, os.exists_.
  destruct (os.lookup fs p) as [[bs|]|]; [|done..]. simpl.
  by destruct (parse_feather bs).
Qed.

Lemma read_csv_not_KeyError fs p key :
  os.exists_ fs p = true → read_csv fs p ≠ Raise (KeyError key).
Proof.
  unfold read_csv, os.open_rb, os.exists_.
  destruct (os.lookup fs p) as [[bs|]|]; [|done..]. simpl.
  by destruct (parse_csv bs).
Qed.

Lemma getitem_KeyError fs self name key :
  __getitem__ fs self name = Raise (KeyError key) ↔
  os.exists_ fs (os.join (path self) (name +:+ ".feather")) = false ∧
  os.exists_ fs (os.join (path self) (name +:+ ".csv")) = false ∧
  key = name.
Proof.
  unfold __getitem__.
  destruct (os.exists_ fs (os.join (path self) (name +:+ ".feather"))) eqn:Ef.
  { split; [|by intros [? _]]. intros H.
    by apply read_feather_not_KeyError in H. }
  destruct (os.exists_ fs (os.join (path self) (name +:+ ".csv"))) eqn:Ec.
  { split; [|by intros (_ & ? & _)]. intros H.
    by apply read_csv_not_KeyError in H. }
  split; [by intros [= ->] | by intros (_ & _ & ->)].
Qed.

(** C7: [get] probes [<name>.feather] first and [<name>.csv] only when
    the former is absent, decoding the file found with the codec of its
    format; when both exist the columnar file wins for [get] and
    [contains]; and [get] raises the key error exactly when neither
    exists. *)
Theorem getitem_probes_feather_then_csv fs self name :
  (os.exists_ fs (os.join (path self) (name +:+ ".feather")) = true →
     __getitem__ fs self name
       = read_feather fs (os.join (path self) (name +:+ ".feather")) ∧
     __contains__ fs self name = true) ∧
  (os.exists_ fs (os.join (path self) (name +:+ ".feather")) = false →
   os.exists_ fs (os.join (path self) (name +:+ ".csv")) = true →
     __getitem__ fs self name
       = read_csv fs (os.join (path self) (name +:+ ".csv")) ∧
     __contains__ fs self name = true) ∧
  (os.exists_ fs (os.join (path self) (name +:+ ".feather")) = false →
   os.exists_ fs (os.join (path self) (name +:+ ".csv")) = false →
     __getitem__ fs self name = Raise (KeyError name) ∧
     __contains__ fs self name = false) ∧
  (∀ key, __getitem__ fs self name = Raise (KeyError key) ↔
     key = name ∧
     os.exists_ fs (os.join (path self) (name +:+ ".feather")) = false ∧
     os.exists_ fs (os.join (path self) (name +:+ ".csv")) = false).
Proof.
  split_and!.
  - intros Hf. unfold __getitem__, __contains__. by rewrite Hf.
  - intros Hf Hc. unfold __getitem__, __contains__. by rewrite Hf, Hc.
  - intros Hf Hc. unfold __getitem__, __contains__. by rewrite Hf, Hc.
  - intros key. rewrite getitem_KeyError. tauto.
Qed.

(** C9, as the code has it: [contains] is true of a name exactly when
    [get] does not raise the key error for it, and false exactly when
    [get] raises the key error of that name.  A table returned by [get]
    implies [contains], but not the other way round: when [contains] is
    true, [get] is the reading of the file found, which returns a table
    only when that file can be opened and decoded. *)
Theorem contains_iff_getitem_finds fs self name :
  (__contains__ fs self name = true ↔
     ∀ key, __getitem__ fs self name ≠ Raise (KeyError key)) ∧
  (__contains__ fs self name = false ↔
     __getitem__ fs self name = Raise (KeyError name)) ∧
  (∀ t, __getitem__ fs self name = Ok t → __contains__ fs self name = true) ∧
  (__contains__ fs self name = true →
     __getitem__ fs self name
     = if os.exists_ fs (os.join (path self) (name +:+ ".feather"))
       then read_feather fs (os.join (path self) (name +:+ ".feather"))
       else read_csv fs (os.join (path self) (name +:+ ".csv"))).
Proof.
  assert (__contains__ fs self name = false ↔
          __getitem__ fs self name = Raise (KeyError name)) as Hiff.
  { rewrite getitem_KeyError. unfold __contains__.
    rewrite orb_false_iff. tauto. }
  split_and!; [|done| |].
  - split.
    + intros Hc key Hk. apply getitem_KeyError in Hk as (Hf & Hcsv & _).
      unfold __contains__ in Hc. by rewrite Hf, Hcsv in Hc.
    + intros Hk. apply not_false_iff_true. intros Hc.
      apply Hiff in Hc. by apply Hk in Hc.
  - intros t Ht. apply not_false_iff_true. intros Hc.
    apply Hiff in Hc. congruence.
  - unfold __contains__, __getitem__.
    destruct (os.exists_ fs (os.join (path self) (name +:+ ".feather")));
      [done|].
    cbn [orb]. by intros ->.
Qed.

End Access.

(** ** Adding a table *)

Section Adding.
Context {Table : Type} `{!TableCodec Table}.
Context {DatasetMeta : Type}.
Implicit Types (fs : FS) (self : Dataset DatasetMeta) (table : Table).
Implicit Types (name format p d : string).

Lemma join_suffix_inj d name e1 e2 :
  os.startswith "/" e1 = false → os.startswith "/" e2 = false →
  os.join d (name +:+ e1) = os.join d (name +:+ e2) → e1 = e2.
Proof.
  intros H1 H2. destruct name as [|a name].
  - simpl. rewrite !join_relative by done. apply append_inj_r.
  - destruct (os.startswith "/" (String a (name +:+ e1))) eqn:E.
    + unfold os.join. simpl in *. rewrite E. intros [= H].
      by apply append_inj_r in H.
    + rewrite !join_relative by done. intros H%append_inj_r.
      injection H as H. by apply append_inj_r in H.
Qed.

Lemma write_file_Ok fs p bs fs' :
  os.write_file fs p bs = Ok fs' → fs' = os.set fs p (File bs).
Proof.
  unfold os.write_file. destruct (os.lookup fs p) as [[old|]|].
  - by intros [= <-].
  - done.
  - destruct (os.parent_ok fs p); [by intros [= <-] | done].
Qed.

Lemma add_supported fs self table format name :
  format = "feather" ∨ format = "csv" → checked_name table = Ok name →
  add self table format fs
  = io_write (λ fs, os.write_file fs
                      (os.join (path self) (name +:+ "." +:+ format))
                      (table_bytes format table)) fs.
Proof.
  intros Hf Hn. unfold add, mbind, IO_bind, io_read. rewrite Hn.
  by destruct Hf as [->| ->].
Qed.

Lemma add_inv fs self table format name r fs' :
  format = "feather" ∨ format = "csv" → checked_name table = Ok name →
  add self table format fs = (r, fs') →
  (r = Ok tt ∧
   fs' = os.set fs (os.join (path self) (name +:+ "." +:+ format))
                (File (table_bytes format table)))
  ∨ (is_ok r = false ∧ fs' = fs).
Proof.
  intros Hf Hn. rewrite (add_supported _ _ _ _ name) by done.
  unfold io_write.
  destruct (os.write_file _ _ _) as [fs''|e] eqn:E.
  - intros [= <- <-]. left. by apply write_file_Ok in E as ->.
  - intros [= <- <-]. by right.
Qed.

(** C10: [add] in a supported format writes the one file
    [<dir>/<name>.<format>]: a file already at that path is overwritten
    without an error, every other entry keeps its content, among them
    the copy of the table in the other format and its sidecar; and no
    entry but that one is created. *)
Theorem add_writes_one_file fs self table format name :
  format = "feather" ∨ format = "csv" →
  checked_name table = Ok name →
  let target := os.join (path self) (name +:+ "." +:+ format) in
  let other := if String.eqb format "feather" then ".csv" else ".feather" in
  (∀ r fs', add self table format fs = (r, fs') →
     (∀ p, p ≠ target → os.lookup fs' p = os.lookup fs p) ∧
     os.lookup fs' (os.join (path self) (name +:+ other))
       = os.lookup fs (os.join (path self) (name +:+ other)) ∧
     os.lookup fs' (os.join (path self) (name +:+ ".meta.json"))
       = os.lookup fs (os.join (path self) (name +:+ ".meta.json")) ∧
     (os.keys fs' = os.keys fs ∨ os.keys fs' = os.keys fs ++ [target]) ∧
     (r = Ok tt →
        os.lookup fs' target = Some (File (table_bytes format table))) ∧
     (is_ok r = false → fs' = fs)) ∧
  (∀ old, os.lookup fs target = Some (File old) →
     add self table format fs
     = (Ok tt, os.set fs target (File (table_bytes format table)))).
Proof.
  intros Hf Hn target other. split.
  - intros r fs' Hadd.
    assert (∀ p, p ≠ target → os.lookup fs' p = os.lookup fs p) as Hframe.
    { intros p Hp.
      destruct (add_inv _ _ _ _ _ _ _ Hf Hn Hadd) as [[_ ->]|[_ ->]]; [|done].
      rewrite lookup_set. fold target.
      by destruct (String.eqb_spec target p) as [->|_]. }
    split_and!; [done| | | | |].
    + apply Hframe. unfold target, other. intros E.
      apply join_suffix_inj in E; by destruct Hf as [->| ->].
    + apply Hframe. unfold target. intros E.
      apply join_suffix_inj in E; by destruct Hf as [->| ->].
    + destruct (add_inv _ _ _ _ _ _ _ Hf Hn Hadd) as [[_ ->]|[_ ->]];
        [|by left].
      rewrite keys_set. fold target.
      destruct (os.exists_ fs target); [by left | by right].
    + intros ->.
      destruct (add_inv _ _ _ _ _ _ _ Hf Hn Hadd) as [[_ ->]|[? _]]; [|done].
      rewrite lookup_set. fold target. by rewrite String.eqb_refl.
    + intros Hr.
      destruct (add_inv _ _ _ _ _ _ _ Hf Hn Hadd) as [[-> _]|[_ ->]]; done.
  - intros old Hold. rewrite (add_supported _ _ _ _ name) by done.
    unfold io_write, os.write_file. fold target. by rewrite Hold.
Qed.

(** C4, as the code has it: after a successful [add] of a table named
    [name], [contains name] is true; [get name] gives the table back
    when the format is columnar, or when it is csv and the directory
    holds no [<name>.feather]; when it is csv and [<name>.feather]
    exists, [get name] still decodes that columnar file.  The codec is
    taken to decode what it encodes. *)
Theorem add_then_get fs fs' self table format name :
  (∀ t, parse_feather (feather_bytes t) = Some t) →
  (∀ t, parse_csv (csv_bytes t) = Some t) →
  format = "feather" ∨ format = "csv" →
  checked_name table = Ok name →
  add self table format fs = (Ok tt, fs') →
  let feather := os.join (path self) (name +:+ ".feather") in
  __contains__ fs' self name = true ∧
  (format = "feather" ∨ os.exists_ fs feather = false →
     __getitem__ fs' self name = Ok table) ∧
  (format = "csv" → os.exists_ fs feather = true →
     __getitem__ fs' self name = read_feather fs feather).
Proof.
  intros Rf Rc Hf Hn Hadd feather.
  destruct (add_inv _ _ _ _ _ _ _ Hf Hn Hadd) as [[_ ->]|[? _]]; [|done].
  unfold __contains__, __getitem__, os.exists_, read_feather, read_csv,
    os.open_rb. fold feather. rewrite !lookup_set.
  destruct Hf as [->| ->]; unfold table_bytes; simpl; fold feather.
  - rewrite String.eqb_refl. simpl. rewrite Rf. split_and!; [done..|].
    intros [=].
  - destruct (String.eqb_spec (os.join (path self) (name +:+ ".csv")) feather)
      as [E|_].
    { unfold feather in E. by apply join_suffix_inj in E. }
    rewrite String.eqb_refl. simpl.
    destruct (os.lookup fs feather) as [x|] eqn:Ex.
    + split_and!; [done| |done]. by intros [[=]|[=]].
    + rewrite Rc. split_and!; [done..|]. by intros _ [=].
Qed.

End Adding.

(** ** Enumeration *)

Section Enumeration.
Context {DatasetMeta : Type}.
Implicit Types (fs : FS) (self : Dataset DatasetMeta) (k n p d : string).

Lemma elem_of_data_files fs self k :
  k ∈ _data_files fs self ↔
  os.exists_ fs k = true ∧ ∃ n, data_name n ∧ k = os.join (path self) n.
Proof.
  unfold _data_files. rewrite sorted_elem_of, elem_of_app.
  rewrite !elem_of_glob by done. rewrite exists_keys.
  unfold data_name. split.
  - intros [[Hk (n & -> & ? & ? & stem & ->)]|[Hk (n & -> & ? & ? & stem & ->)]];
      (split; [done|]); eexists; (split; [|done]); split_and!; eauto.
  - intros [Hk (n & (? & ? & stem & [->| ->]) & ->)]; [left|right];
      (split; [done|]); eexists; split_and!; eauto.
Qed.

Lemma data_files_sorted fs self : StronglySorted String.le (_data_files fs self).
Proof. apply sorted_sorted. Qed.

Lemma data_files_NoDup fs self :
  NoDup (os.keys fs) → NoDup (_data_files fs self).
Proof.
  intros Hnd. apply sorted_NoDup, NoDup_app. split_and!.
  - by apply NoDup_filter.
  - intros k [_ (n1 & -> & H1 & _ & s1 & ->)]%elem_of_glob
             [_ (n2 & E & H2 & _ & s2 & ->)]%elem_of_glob; try done.
    rewrite !join_name in E by done. apply append_inj_r in E.
    by apply extension_inj in E as [_ ?].
  - by apply NoDup_filter.
Qed.


Lemma data_files_entry_names fs self :
  _data_files fs self = os.join (path self) <$> entry_names fs self.
Proof.
  unfold entry_names. rewrite <- list_fmap_compose.
  rewrite <- (list_fmap_id (_data_files fs self)) at 1.
  apply Forall_fmap_ext, Forall_forall.
  intros k (_ & n & (Hs & _) & ->)%elem_of_data_files. simpl.
  by rewrite split_join.
Qed.

Lemma elem_of_entry_names fs self n :
  n ∈ entry_names fs self ↔
  data_name n ∧ os.exists_ fs (os.join (path self) n) = true.
Proof.
  unfold entry_names. rewrite list_elem_of_fmap. split.
  - intros (k & E & (Hk & n' & Hn & ->)%elem_of_data_files).
    pose proof Hn as (Hs & _). rewrite split_join in E by done.
    simpl in E. by subst n.
  - intros [Hn Hk]. exists (os.join (path self) n).
    pose proof Hn as (Hs & _). rewrite split_join by done.
    split; [done|]. apply elem_of_data_files. eauto.
Qed.

Lemma compare_append p a b :
  String.compare (p +:+ a) (p +:+ b) = String.compare a b.
Proof.
  induction p as [|c p IH]; simpl; [done|].
  unfold Ascii.compare. by rewrite N.compare_refl.
Qed.

Lemma le_append p a b : String.le (p +:+ a) (p +:+ b) ↔ String.le a b.
Proof. unfold String.le, String.leb. by rewrite compare_append. Qed.

Lemma le_join d a b :
  os.occurs "/" a = false → os.occurs "/" b = false →
  String.le (os.join d a) (os.join d b) ↔ String.le a b.
Proof. intros Ha Hb. rewrite !join_name by done. apply le_append. Qed.

Lemma entry_names_sorted fs self :
  StronglySorted String.le (entry_names fs self).
Proof.
  pose proof (data_files_sorted fs self) as Hs.
  rewrite data_files_entry_names in Hs.
  assert (Forall data_name (entry_names fs self)) as Hall.
  { apply Forall_forall. by intros n [? _]%elem_of_entry_names. }
  induction Hall as [|n names [Hn _] Hall IH]; [constructor|].
  rewrite fmap_cons in Hs. apply StronglySorted_inv in Hs as [Hs Hhd].
  constructor; [by apply IH|].
  rewrite Forall_fmap in Hhd. rewrite Forall_forall in Hhd, Hall.
  apply Forall_forall. intros m Hm.
  specialize (Hhd m Hm). simpl in Hhd.
  destruct (Hall m Hm) as [Hms _]. by apply le_join in Hhd.
Qed.

Lemma entry_names_NoDup fs self :
  NoDup (os.keys fs) → NoDup (entry_names fs self).
Proof.
  intros Hnd%(data_files_NoDup fs self).
  rewrite data_files_entry_names in Hnd. by apply NoDup_fmap_1 in Hnd.
Qed.

(** The names are determined by what the directory holds. *)
Lemma entry_names_unique fs self (names : list string) :
  NoDup (os.keys fs) →
  NoDup names → StronglySorted String.le names →
  (∀ n, n ∈ names ↔
        data_name n ∧ os.exists_ fs (os.join (path self) n) = true) →
  entry_names fs self = names.
Proof.
  intros Hfs Hnd Hs Hin. apply (StronglySorted_unique String.le);
    [apply entry_names_sorted|done|].
  apply NoDup_Permutation; [by apply entry_names_NoDup|done|].
  intros n. by rewrite elem_of_entry_names, Hin.
Qed.

End Enumeration.

(** ** Iteration *)

Section Iteration.
Context {Table : Type} `{!TableCodec Table}.
Context {DatasetMeta : Type}.
Implicit Types (fs : FS) (self : Dataset DatasetMeta) (gen : list string).

(** Running the generator is stepping it with [__next__]. *)
Lemma tolist_next fs gen :
  tolist fs gen =
    match __next__ fs gen with
    | Ok None => Ok []
    | Ok (Some (t, gen')) => ts ← tolist fs gen'; Ok (t :: ts)
    | Raise e => Raise e
    end.
Proof.
  destruct gen as [|f gen]; simpl; [done|].
  by destruct (read_feather fs f).
Qed.




End Iteration.

(** ** The checksum *)

Section Checksum.
Context {DatasetMeta : Type}.
Implicit Types (fs : FS) (self : Dataset DatasetMeta) (n p d stem : string).
Implicit Types (names : list string) (h : hashlib.hash).

Lemma similar_bind {A B} (P : Prop) (r1 r2 : result A) (k1 k2 : A → result B) :
  similar P r1 r2 → (∀ a, similar P (k1 a) (k2 a)) →
  similar P (r1 ≫= k1) (r2 ≫= k2).
Proof.
  destruct r1 as [a1|e1], r2 as [a2|e2]; simpl; try done.
  intros -> Hk. apply Hk.
Qed.

Lemma similar_value {A} (P : Prop) (r1 r2 : result A) :
  similar P r1 r2 → value r1 = value r2.
Proof. destruct r1, r2; simpl; by try intros ->. Qed.

Lemma similar_eq {A} (P : Prop) (r1 r2 : result A) :
  similar P r1 r2 → P → r1 = r2.
Proof.
  destruct r1, r2; simpl; try done; [by intros ->|].
  intros H HP. by rewrite H.
Qed.

Lemma checksum_file_similar fs1 fs2 p1 p2 (P : Prop) :
  os.lookup fs1 p1 = os.lookup fs2 p2 → (P → p1 = p2) →
  similar P (checksum_file fs1 p1) (checksum_file fs2 p2).
Proof.
  intros Hl HP. destruct (os.lookup fs2 p2) as [[bs|]|] eqn:E2.
  - by rewrite (checksum_file_File _ _ bs), (checksum_file_File _ _ bs).
  - rewrite !checksum_file_Dir by done. simpl. by intros ->%HP.
  - rewrite !checksum_file_None by done. simpl. by intros ->%HP.
Qed.

(** The sidecar name of a data name is the stem with [.meta.json]. *)
Lemma with_suffix_name_data n :
  data_name n →
  ∃ stem, (n = stem +:+ ".feather" ∨ n = stem +:+ ".csv") ∧
    pathlib.with_suffix_name n ".meta.json" = stem +:+ ".meta.json" ∧
    os.is_name (stem +:+ ".meta.json") = true ∧
    ∀ d, pathlib.with_suffix (os.join d n) ".meta.json"
         = Ok (os.join d (stem +:+ ".meta.json")).
Proof.
  intros Hn. destruct (sidecar_of_data_file n Hn) as (stem & Hm & Hs & Hw).
  exists stem. split_and!; [done| |done..].
  assert (stem ≠ "") as Hne.
  { destruct Hn as (_ & Hh & _). intros ->. by destruct Hs as [->| ->]. }
  unfold pathlib.with_suffix_name.
  destruct Hs as [->| ->]; rewrite (rsplit_app "." stem) by done;
    by apply String.eqb_neq in Hne as ->.
Qed.

Lemma checksum_loop_digests fs d names h :
  Forall data_name names →
  checksum_loop fs (os.join d <$> names) h
  = ds ← digests fs (names ≫= with_sidecar d); Ok (h ++ ds).
Proof.
  intros Hall. revert h. induction Hall as [|n names Hn Hall IH]; intros h.
  { simpl. by rewrite app_nil_r. }
  destruct (with_suffix_name_data n Hn) as (stem & _ & Hm & _ & Hw).
  rewrite fmap_cons. cbn [checksum_loop mbind list_bind with_sidecar app digests].
  rewrite Hw, Hm.
  destruct (checksum_file fs (os.join d n)) as [h1|e]; [|done].
  cbn [mbind result_bind].
  destruct (checksum_file fs (os.join d (stem +:+ ".meta.json"))) as [h2|e];
    [|done].
  cbn [mbind result_bind]. rewrite IH.
  destruct (digests fs (names ≫= with_sidecar d)) as [ds|e]; [|done].
  cbn [mbind result_bind]. unfold hashlib.update.
  by rewrite <- !app_assoc.
Qed.

(** [checksum] is the hexadecimal MD5 of the digests of its
    constituents, in their order. *)
Lemma checksum_digests fs self :
  checksum fs self
  = ds ← digests fs (constituents (path self) (entry_names fs self));
    Ok (hashlib.hex (hashlib.md5 ds)).
Proof.
  unfold checksum, constituents, _index_file. cbn [digests].
  destruct (checksum_file fs (os.join (path self) "index.json")) as [h|e];
    [|done].
  cbn [mbind result_bind]. rewrite data_files_entry_names.
  rewrite checksum_loop_digests.
  2:{ apply Forall_forall. by intros n [? _]%elem_of_entry_names. }
  by destruct (digests fs _).
Qed.

Lemma digests_similar fs1 fs2 (files1 files2 : list string) (P : Prop) :
  Forall2 (λ p1 p2, os.lookup fs1 p1 = os.lookup fs2 p2 ∧ (P → p1 = p2))
          files1 files2 →
  similar P (digests fs1 files1) (digests fs2 files2).
Proof.
  induction 1 as [|p1 p2 files1 files2 [Hl HP] _ IH]; simpl; [done|].
  apply similar_bind; [by apply checksum_file_similar|].
  intros h. apply similar_bind; [done|]. by intros ds.
Qed.

Lemma digests_not_file fs (files : list string) p :
  p ∈ files → (∀ bs, os.lookup fs p ≠ Some (File bs)) →
  is_ok (digests fs files) = false.
Proof.
  intros Hp Hnf. induction files as [|q files IH]; [by apply elem_of_nil in Hp|].
  simpl. apply elem_of_cons in Hp as [<-|Hp].
  - unfold checksum_file, os.open_rb.
    destruct (os.lookup fs p) as [[bs|]|]; [by destruct (Hnf bs)|done..].
  - destruct (checksum_file fs q); [|done]. simpl.
    specialize (IH Hp). by destruct (digests fs files).
Qed.

Lemma digests_raises fs (files : list string) :
  is_ok (digests fs files) = false →
  ∃ q, q ∈ files ∧
    (digests fs files = Raise (FileNotFoundError q) ∧ os.lookup fs q = None ∨
     digests fs files = Raise (IsADirectoryError q) ∧
     os.lookup fs q = Some Dir).
Proof.
  induction files as [|p files IH]; [done|].
  cbn [digests]. destruct (os.lookup fs p) as [[bs|]|] eqn:Ep.
  - rewrite (checksum_file_File _ _ bs) by done. cbn [mbind result_bind].
    destruct (digests fs files) as [ds|e] eqn:Ed; [done|]. intros _.
    destruct IH as (q & Hq & Hcase); [done|].
    exists q. split; [by right|].
    destruct Hcase as [[[= ->] Hn]|[[= ->] Hn]]; auto.
  - rewrite checksum_file_Dir by done. intros _.
    exists p. split; [by left|]. by right.
  - rewrite checksum_file_None by done. intros _.
    exists p. split; [by left|]. by left.
Qed.

Lemma digests_missing fs (files : list string) p :
  p ∈ files → os.lookup fs p = None →
  (∀ q, q ∈ files → os.lookup fs q ≠ Some Dir) →
  ∃ q, q ∈ files ∧ os.lookup fs q = None ∧
       digests fs files = Raise (FileNotFoundError q).
Proof.
  intros Hp Hnone Hreg.
  induction files as [|q files IH]; [by apply elem_of_nil in Hp|].
  simpl. destruct (os.lookup fs q) as [[bs|]|] eqn:Eq.
  - assert (p ∈ files) as Hp'.
    { apply elem_of_cons in Hp as [->|]; [congruence|done]. }
    destruct IH as (q' & Hq' & Hn' & ->); [done| |].
    { intros q' Hq'. apply Hreg. by right. }
    exists q'. rewrite (checksum_file_File _ _ bs) by done.
    split_and!; [by right|done..].
  - destruct (Hreg q); [by left|done].
  - exists q. rewrite checksum_file_None by done.
    split_and!; [by left|done..].
Qed.

Lemma hidden_append stem t :
  stem ≠ "" → glob.ishidden (stem +:+ t) = glob.ishidden stem.
Proof. by destruct stem. Qed.

(** C2: for a directory, at a path in normal form without wildcard
    characters, that holds exactly [index.json] with bytes [A], [dog.feather] with bytes
    [B] and [dog.meta.json] with bytes [C], [checksum] returns the
    hexadecimal form of [MD5(MD5(A) ++ MD5(B) ++ MD5(C))]; and whatever
    [checksum] returns is 32 characters of lowercase hexadecimal. *)
Theorem checksum_of_dog_dataset fs self (A B C : list byte) :
  NoDup (os.keys fs) →
  normal (path self) → glob.has_magic (path self) = false →
  (∀ n, os.is_name n = true →
        os.lookup fs (os.join (path self) n) = dog_directory A B C n) →
  checksum fs self
  = Ok (hashlib.hex (hashlib.md5
          (hashlib.md5 A ++ hashlib.md5 B ++ hashlib.md5 C))) ∧
  (∀ fs' (self' : Dataset DatasetMeta) s,
     checksum fs' self' = Ok s → String.length s = 32 ∧ lower_hex s).
Proof.
  intros Hnd _ _ Hdir. split.
  - assert (entry_names fs self = ["dog.feather"]) as Hnames.
    { apply entry_names_unique; [done|apply NoDup_singleton|repeat constructor|].
      intros n. rewrite list_elem_of_singleton. split.
      - intros ->. split; [by apply data_nameb_spec|].
        unfold os.exists_. by rewrite Hdir.
      - intros [Hn Hex]. unfold os.exists_ in Hex.
        rewrite Hdir in Hex by (by apply data_name_is_name).
        apply data_nameb_spec in Hn. unfold dog_directory in Hex.
        destruct (String.eqb_spec n "index.json") as [->|_]; [done|].
        destruct (String.eqb_spec n "dog.feather") as [->|_]; [done|].
        destruct (String.eqb_spec n "dog.meta.json") as [->|_]; done. }
    rewrite checksum_digests, Hnames.
    change (constituents (path self) ["dog.feather"])
      with [os.join (path self) "index.json";
            os.join (path self) "dog.feather";
            os.join (path self) "dog.meta.json"].
    cbn [digests].
    rewrite (checksum_file_File fs (os.join (path self) "index.json") A),
      (checksum_file_File fs (os.join (path self) "dog.feather") B),
      (checksum_file_File fs (os.join (path self) "dog.meta.json") C)
      by (rewrite Hdir by done; done).
    cbn [mbind result_bind]. unfold hashlib.digest.
    by rewrite app_nil_r.
  - intros fs' self' s. rewrite checksum_digests.
    destruct (digests fs' _) as [ds|e]; [|done]. intros [= <-].
    apply (hexdigest_canonical ds).
Qed.

(** C5, as the code has it: on a path in normal form without wildcard
    characters, when a table has a data file and no sidecar at
    [<stem>.meta.json], [checksum] returns no value.  It raises at one
    of the files it reads (the index, the data files and their
    sidecars): with the file-not-found error when nothing is there, with
    the is-a-directory error when a directory is there.  When none of
    those files is a directory, it is the file-not-found error of a file
    that is absent, and when the index is there, of the sidecar of one
    of the data files. *)
Theorem checksum_fails_on_missing_sidecar fs self stem ext :
  normal (path self) → glob.has_magic (path self) = false →
  os.is_name stem = true → glob.ishidden stem = false →
  ext = ".feather" ∨ ext = ".csv" →
  os.exists_ fs (os.join (path self) (stem +:+ ext)) = true →
  os.exists_ fs (os.join (path self) (stem +:+ ".meta.json")) = false →
  is_ok (checksum fs self) = false ∧
  (∃ q, q ∈ constituents (path self) (entry_names fs self) ∧
     (checksum fs self = Raise (FileNotFoundError q) ∧
      os.exists_ fs q = false ∨
      checksum fs self = Raise (IsADirectoryError q) ∧
      os.isdir fs q = true)) ∧
  ((∀ q, q ∈ constituents (path self) (entry_names fs self) →
         os.isdir fs q = false) →
   ∃ q, q ∈ constituents (path self) (entry_names fs self) ∧
     os.exists_ fs q = false ∧
     checksum fs self = Raise (FileNotFoundError q) ∧
     (os.exists_ fs (_index_file self) = true →
      ∃ stem',
        (os.join (path self) (stem' +:+ ".feather") ∈ _data_files fs self ∨
         os.join (path self) (stem' +:+ ".csv") ∈ _data_files fs self) ∧
        q = os.join (path self) (stem' +:+ ".meta.json"))).
Proof.
  intros _ _ [Hne Hsl]%is_name_spec Hh Hext Hdata Hside.
  set (d := path self) in *. set (n := stem +:+ ext) in *.
  assert (data_name n) as Hn.
  { unfold data_name, n. rewrite hidden_append, occurs_app, Hsl by done.
    split_and!; [by destruct Hext as [->| ->]|done|].
    exists stem. destruct Hext as [->| ->]; auto. }
  assert (n ∈ entry_names fs self) as Hin by (by apply elem_of_entry_names).
  assert (pathlib.with_suffix_name n ".meta.json" = stem +:+ ".meta.json")
    as Hsn.
  { unfold pathlib.with_suffix_name, n.
    destruct Hext as [->| ->]; rewrite (rsplit_app "." stem) by done;
      by apply String.eqb_neq in Hne as ->. }
  assert (os.join d (stem +:+ ".meta.json")
          ∈ constituents d (entry_names fs self)) as Hc.
  { unfold constituents. right. apply list_elem_of_bind. exists n.
    split; [|done]. unfold with_sidecar. rewrite Hsn. right. by left. }
  apply exists_lookup in Hside. rewrite checksum_digests. fold d.
  pose proof (digests_not_file fs _ _ Hc) as Hno.
  rewrite Hside in Hno. specialize (Hno ltac:(done)).
  split_and!.
  - by destruct (digests fs _).
  - destruct (digests_raises fs _ Hno) as (q & Hq & [[-> Hnone]|[-> Hdir]]);
      exists q; (split; [done|]); [left|right]; (split; [done|]).
    + by apply exists_lookup.
    + unfold os.isdir. by rewrite Hdir.
  - intros Hflat.
    destruct (digests_missing fs (constituents d (entry_names fs self))
                (os.join d (stem +:+ ".meta.json")))
      as (q & Hq & Hnone & ->); [done..| |].
    { intros q Hq HDir. specialize (Hflat q Hq). unfold os.isdir in Hflat.
      by rewrite HDir in Hflat. }
    exists q. split_and!; [done|by apply exists_lookup|done|].
    intros Hidx.
    unfold constituents in Hq. apply elem_of_cons in Hq as [->|Hq].
    { unfold _index_file, os.exists_ in Hidx. fold d in Hidx.
      by rewrite Hnone in Hidx. }
    apply list_elem_of_bind in Hq as (m & Hq & Hm).
    pose proof Hm as [Hdm Hex]%elem_of_entry_names.
    destruct (with_suffix_name_data m Hdm) as (st & Hst & Hsm & _ & _).
    unfold with_sidecar in Hq. rewrite Hsm in Hq.
    apply elem_of_cons in Hq as [->|Hq].
    { unfold os.exists_ in Hex. fold d in Hex. by rewrite Hnone in Hex. }
    apply list_elem_of_singleton in Hq as ->.
    exists st. split; [|done].
    destruct Hst as [->| ->]; [left|right];
      apply elem_of_data_files; eauto.
Qed.

Lemma constituent_name_is_name n : constituent_name n → os.is_name n = true.
Proof.
  intros [->|[Hn|(stem & -> & Hs)]]; [done|by apply data_name_is_name|].
  assert (os.occurs "/" stem = false) as Hst.
  { destruct Hs as [(Hs & _)|(Hs & _)]; rewrite occurs_app in Hs;
      by apply orb_false_iff in Hs as [? _]. }
  apply is_name_spec. rewrite occurs_app, Hst.
  split; [|done]. by intros [_ ?]%append_eq_nil.
Qed.

Lemma with_sidecar_same fs1 fs2 d1 d2 names :
  Forall data_name names →
  (∀ n, constituent_name n →
        os.lookup fs1 (os.join d1 n) = os.lookup fs2 (os.join d2 n)) →
  Forall2 (λ p1 p2, os.lookup fs1 p1 = os.lookup fs2 p2 ∧ (d1 = d2 → p1 = p2))
          (names ≫= with_sidecar d1) (names ≫= with_sidecar d2).
Proof.
  intros Hall Hsame. induction Hall as [|n names Hn Hall IH]; [constructor|].
  destruct (with_suffix_name_data n Hn) as (st & Hst & Hsn & _ & _).
  cbn [mbind list_bind with_sidecar app]. rewrite Hsn.
  repeat (constructor; [split; [apply Hsame | by intros ->]|]).
  - right. by left.
  - right. right. exists st. split; [done|].
    destruct Hst as [->| ->]; auto.
  - apply IH.
Qed.

(** C6: two dataset directories that hold the same index, data and
    sidecar files under the same names, whatever the order in which
    their entries were created or are enumerated, have the same
    checksum: both calls return the same string, or both raise, and the
    same exception when the two directories have the same path.  The
    files are folded in the order of their names: the index, then each
    data file of the sorted list followed by its sidecar.  The paths of
    the two directories are in normal form and have no wildcard
    characters. *)
Theorem checksum_depends_on_contents_only fs1 fs2 self1 self2 :
  NoDup (os.keys fs1) → NoDup (os.keys fs2) →
  normal (path self1) → normal (path self2) →
  glob.has_magic (path self1) = false → glob.has_magic (path self2) = false →
  (∀ n, constituent_name n →
        os.lookup fs1 (os.join (path self1) n)
        = os.lookup fs2 (os.join (path self2) n)) →
  value (checksum fs1 self1) = value (checksum fs2 self2) ∧
  (path self1 = path self2 → checksum fs1 self1 = checksum fs2 self2) ∧
  StronglySorted String.le (_data_files fs1 self1) ∧
  entry_names fs1 self1 = entry_names fs2 self2 ∧
  StronglySorted String.le (entry_names fs1 self1) ∧
  checksum fs1 self1
  = (ds ← digests fs1 (constituents (path self1) (entry_names fs1 self1));
     Ok (hashlib.hex (hashlib.md5 ds))).
Proof.
  intros Hnd1 Hnd2 _ _ _ _ Hsame.
  assert (entry_names fs1 self1 = entry_names fs2 self2) as Hnames.
  { apply entry_names_unique;
      [done|by apply entry_names_NoDup|apply entry_names_sorted|].
    intros n. rewrite elem_of_entry_names. unfold os.exists_. split.
    - intros [Hn Hex]. rewrite Hsame; [done|]. right. by left.
    - intros [Hn Hex]. rewrite <- Hsame; [done|]. right. by left. }
  assert (similar (path self1 = path self2)
            (checksum fs1 self1) (checksum fs2 self2)) as Hsim.
  { rewrite !checksum_digests, <- Hnames.
    apply similar_bind; [|by intros ds].
    apply digests_similar. unfold constituents. constructor.
    { split; [apply Hsame; by left | by intros ->]. }
    apply with_sidecar_same; [|done].
    apply Forall_forall. by intros n [? _]%elem_of_entry_names. }
  split_and!.
  - by apply similar_value in Hsim.
  - by apply similar_eq.
  - apply data_files_sorted.
  - done.
  - apply entry_names_sorted.
  - apply checksum_digests.
Qed.

End Checksum.

(** ** The sample codec and sample directories *)

Section Samples.

Lemma unpack_pack (name : string) (rest : list byte) :
  sample.unpack (sample.pack name rest) = Some (name, rest).
Proof.
  induction name as [|a name IH]; simpl; [done|].
  by rewrite IH, ascii_of_byte_of_ascii.
Qed.

Lemma sample_feather_roundtrip (t : sample.table) :
  parse_feather (feather_bytes t) = Some t.
Proof. destruct t. simpl. by rewrite unpack_pack. Qed.

Lemma sample_csv_roundtrip (t : sample.table) :
  parse_csv (csv_bytes t) = Some t.
Proof. destruct t. simpl. by rewrite unpack_pack. Qed.

Lemma append_neq_self (s t : string) : t ≠ "" → s +:+ t ≠ s.
Proof.
  intros Ht E. rewrite <- (append_nil_r s) in E at 2.
  by apply append_inj_r in E.
Qed.

Lemma join_neq_dir (d n : string) : os.is_name n = true → os.join d n ≠ d.
Proof.
  intros [Hne Hs]%is_name_spec. rewrite join_name by done.
  unfold dirpath. destruct (String.eqb d "" || os.endswith_slash d).
  - by apply append_neq_self.
  - rewrite append_assoc. by apply append_neq_self.
Qed.

Lemma join_name_inj (d n m : string) :
  os.is_name n = true → os.is_name m = true →
  os.join d n = os.join d m → n = m.
Proof.
  intros [_ Hn]%is_name_spec [_ Hm]%is_name_spec.
  rewrite !join_name by done. apply append_inj_r.
Qed.

(** Looking a name up in a sample directory is looking it up in its
    entries. *)
Lemma lookup_dataset_dir (d : string) (entries : list (string * node)) (n : string) :
  Forall (λ e, os.is_name e.1 = true) entries → os.is_name n = true →
  os.lookup (dataset_dir d entries) (os.join d n) = os.lookup entries n.
Proof.
  intros Hall Hn. unfold dataset_dir. cbn [os.lookup].
  destruct (String.eqb_spec d (os.join d n)) as [E|_].
  { symmetry in E. by apply join_neq_dir in E. }
  induction Hall as [|[m x] entries Hm Hall IH]; [done|].
  cbn [map os.lookup fst snd].
  destruct (String.eqb_spec m n) as [->|Hne].
  - by rewrite String.eqb_refl.
  - destruct (String.eqb_spec (os.join d m) (os.join d n)) as [E|_]; [|done].
    by apply join_name_inj in E.
Qed.

End Samples.

(** ** Worked instances

    The theorems above at sample directories, with the sample codec. *)

Ltac by_computation := apply (bool_decide_unpack _); vm_compute; exact I.

Lemma normal_d : normal "d".
Proof. unfold normal, canonical. by_computation. Qed.

Lemma normal_c : normal "c".
Proof. unfold normal, canonical. by_computation. Qed.

Lemma normal_data : normal "data".
Proof. unfold normal, canonical. by_computation. Qed.

Lemma stays_below_dog : stays_below "dog".
Proof. unfold stays_below. by_computation. Qed.

Lemma checksum_of_dog_dataset_witness :
  checksum (dataset_dir "d" dog_entries) dogs
  = Ok "4054c6f7787ecb7b323323155b0c0583".
Proof.
  destruct (checksum_of_dog_dataset (dataset_dir "d" dog_entries) dogs
              (bytes_of_string "a") (bytes_of_string "b") (bytes_of_string "c"))
    as [H _].
  - by_computation.
  - apply normal_d.
  - reflexivity.
  - intros n Hn. change (path dogs) with "d".
    rewrite lookup_dataset_dir; [|repeat constructor|done].
    unfold dog_entries, dog_directory. cbn [os.lookup].
    rewrite !(String.eqb_sym n).
    destruct (String.eqb_spec "dog.meta.json" n) as [<-|_]; [done|].
    destruct (String.eqb_spec "dog.feather" n) as [<-|_]; [done|].
    by destruct (String.eqb_spec "index.json" n).
  - rewrite H. vm_compute. reflexivity.
Defined.

Lemma checksum_fails_on_missing_sidecar_witness :
  is_ok (checksum (dataset_dir "d" orphan_entries) dogs) = false ∧
  ∃ q, checksum (dataset_dir "d" orphan_entries) dogs
       = Raise (FileNotFoundError q) ∧
       ∃ stem, q = os.join "d" (stem +:+ ".meta.json").
Proof.
  destruct (checksum_fails_on_missing_sidecar
              (dataset_dir "d" orphan_entries) dogs "dog" ".csv")
    as (Hfail & _ & Hraise);
    [apply normal_d| reflexivity| reflexivity| reflexivity| by right
    | reflexivity| reflexivity|].
  split; [exact Hfail|].
  destruct Hraise as (q & _ & _ & H & Hside).
  { apply Forall_forall. by_computation. }
  destruct Hside as (stem & _ & ->); [reflexivity|].
  exists (os.join "d" (stem +:+ ".meta.json")). split; [exact H|by exists stem].
Defined.

Lemma checksum_depends_on_contents_only_witness :
  value (checksum (dataset_dir "d" pets_entries) dogs)
  = value (checksum (dataset_dir "c" pets_entries_reordered) cats).
Proof.
  destruct (checksum_depends_on_contents_only
              (dataset_dir "d" pets_entries)
              (dataset_dir "c" pets_entries_reordered) dogs cats)
    as [H _];
    [by_computation| by_computation| apply normal_d| apply normal_c
    | reflexivity| reflexivity| |exact H].
  intros n Hn%constituent_name_is_name.
  change (path dogs) with "d". change (path cats) with "c".
  rewrite !lookup_dataset_dir; [|repeat constructor|done|repeat constructor|done].
  unfold pets_entries, pets_entries_reordered. cbn [os.lookup].
  destruct (String.eqb_spec "cat.meta.json" n) as [<-|_]; [done|].
  destruct (String.eqb_spec "dog.meta.json" n) as [<-|_]; [done|].
  destruct (String.eqb_spec "cat.csv" n) as [<-|_]; [done|].
  destruct (String.eqb_spec "dog.feather" n) as [<-|_]; [done|].
  by destruct (String.eqb_spec "index.json" n).
Defined.


Lemma add_writes_one_file_witness :
  add data dog "feather" data_fs
  = (Ok tt, os.set data_fs "data/dog.feather" (File (feather_bytes dog))).
Proof.
  destruct (add_writes_one_file data_fs data dog "feather" "dog") as [_ H];
    [by left | reflexivity |].
  apply (H (feather_bytes old_dog)). reflexivity.
Defined.

Lemma add_then_get_witness :
  add data dog "csv" empty_fs = (Ok tt, csv_fs) ∧
  __contains__ csv_fs data "dog" = true ∧
  __getitem__ csv_fs data "dog" = Ok dog.
Proof.
  assert (add data dog "csv" empty_fs = (Ok tt, csv_fs)) as Hadd by reflexivity.
  destruct (add_then_get empty_fs csv_fs data dog "csv" "dog"
              sample_feather_roundtrip sample_csv_roundtrip)
    as (Hc & Hg & _); [by right | reflexivity | exact Hadd |].
  split_and!; [exact Hadd | exact Hc | apply Hg; by right].
Defined.

(** The claim of C4 as it is written fails: a csv copy added beside a
    columnar file of the same name is not what [get] returns. *)
Lemma add_then_get_counterexample :
  ¬ (∀ (fs fs' : FS) (self : Dataset (list byte)) (table : sample.table)
       (format name : string),
       format = "feather" ∨ format = "csv" →
       checked_name table = Ok name →
       add self table format fs = (Ok tt, fs') →
       __contains__ fs' self name = true ∧
       __getitem__ fs' self name = Ok table).
Proof.
  intros H.
  destruct (H data_fs (os.set data_fs "data/dog.csv" (File (csv_bytes dog)))
              data dog "csv" "dog") as [_ Hget];
    [by right | reflexivity | reflexivity |].
  vm_compute in Hget. discriminate Hget.
Qed.

(** The claim of C5 as it is written fails: [glob] lists a directory
    that has the name of a data file, and [checksum] stops at it with
    the is-a-directory error before it comes to the missing sidecar. *)
Lemma checksum_fails_on_missing_sidecar_counterexample :
  ¬ (∀ (fs : FS) (self : Dataset unit) (stem ext : string),
       NoDup (os.keys fs) →
       normal (path self) → glob.has_magic (path self) = false →
       os.is_name stem = true → glob.ishidden stem = false →
       ext = ".feather" ∨ ext = ".csv" →
       os.exists_ fs (os.join (path self) (stem +:+ ext)) = true →
       os.exists_ fs (os.join (path self) (stem +:+ ".meta.json")) = false →
       ∃ q, checksum fs self = Raise (FileNotFoundError q)).
Proof.
  intros H.
  destruct (H (dataset_dir "d" cluttered_entries) dogs "dog" ".csv")
    as [q Hq];
    [by_computation| apply normal_d| reflexivity| reflexivity| reflexivity
    | by right
    | reflexivity| reflexivity|].
  vm_compute in Hq. discriminate Hq.
Qed.


(** The claim of C9 as it is written fails: [contains] only asks whether
    something is at one of the two paths, and [get] has still to open
    and decode it.  Here the columnar file of the table is a directory:
    [contains] is true and [get] returns no table. *)
Lemma contains_iff_getitem_finds_counterexample :
  ¬ (∀ (fs : FS) (self : Dataset (list byte)) (name : string),
       __contains__ fs self name = true ↔
       ∃ t : sample.table, __getitem__ fs self name = Ok t).
Proof.
  intros H.
  destruct (H blocked_fs data "dog") as [Hget _].
  destruct Hget as [t Ht]; [reflexivity|].
  vm_compute in Ht. discriminate Ht.
Qed.

(** C3, on the code: the metadata argument of [create_empty] is never
    read.  With a document supplied, the index file still receives the
    default document, and the handle returned holds the default. *)
Theorem create_empty_writes_default_metadata :
  let supplied := bytes_of_string "{title: dogs}" in
  supplied ≠ default_meta ∧
  create_empty "data" (Some supplied) []
  = (Ok {| path := "data"; metadata := bytes_of_string "{}" |},
     [("data", Dir); ("data/index.json", File (bytes_of_string "{}"))]) ∧
  ∀ (M : Type) (codec : MetaCodec M) (path : string) (m : M),
    create_empty path (Some m) = create_empty path None.
Proof. split_and!; [discriminate | reflexivity | reflexivity]. Qed.

(** ** Checks of the model *)

Example md5_empty :
  hashlib.hexdigest (bytes_of_string "") = "d41d8cd98f00b204e9800998ecf8427e".
Proof. vm_compute. reflexivity. Qed.

Example md5_abc :
  hashlib.hexdigest (bytes_of_string "abc") = "900150983cd24fb0d6963f7d28e17f72".
Proof. vm_compute. reflexivity. Qed.

Example md5_two_blocks :
  hashlib.hexdigest
    (bytes_of_string
       "12345678901234567890123456789012345678901234567890123456789012345678901234567890")
  = "57edf4a22be3c955ac49da2e2107b67a".
Proof. vm_compute. reflexivity. Qed.

Example md5_padding_boundaries :
  map (λ n, hashlib.hexdigest (replicate n "x"%byte)) [55; 56; 64]
  = [ "04364420e25c512fd958a70738aa8f72";
      "668a72d5ba17f08e62dabcafad6db14b";
      "c1bb4f81d892b2d57947682aeb252456" ].
Proof. vm_compute. reflexivity. Qed.

Example data_files_of_data :
  _data_files
    (dataset_dir "data"
       (data_entries ++ [("cat.csv", File []); (".hidden.csv", File []);
                         ("notes.txt", File [])]))
    data
  = ["data/cat.csv"; "data/dog.feather"].
Proof. vm_compute. reflexivity. Qed.

Example recreate_valid_store :
  create_empty "data" None data_fs
  = (Ok data,
     [("data", Dir); ("data/index.json", File (bytes_of_string "{}"))]).
Proof. vm_compute. reflexivity. Qed.

Example both_formats_feather_wins :
  let fs := os.set data_fs "data/dog.csv" (File (csv_bytes dog)) in
  __getitem__ fs data "dog" = Ok old_dog ∧
  __getitem__ (filter (λ e, e.1 ≠ "data/dog.feather") fs) data "dog" = Ok dog ∧
  __getitem__ fs data "cat" = Raise (KeyError "cat").
Proof. vm_compute. auto. Qed.

Example iterating_reads_csv_as_feather :
  tolist (Table := sample.table) csv_fs (__iter__ csv_fs data)
  = Raise (DecodeError "data/dog.csv").
Proof. vm_compute. reflexivity. Qed.

Example unsupported_format :
  add data dog "parquet" []
  = (Raise (Exception "Format 'parquet'' is not supported"), []).
Proof. vm_compute. reflexivity. Qed.

(** * Further properties of the module *)

(** ** Reading files for the checksum *)

Section Reading.
Context {DatasetMeta : Type}.
Implicit Types (fs : FS) (self : Dataset DatasetMeta) (p : string).

Lemma is_file_content fs p :
  is_file fs p = true → os.lookup fs p = Some (File (content fs p)).
Proof.
  unfold is_file, content. by destruct (os.lookup fs p) as [[bs|]|].
Qed.

Lemma digests_files fs (files : list string) :
  Forall (λ p, is_file fs p = true) files →
  digests fs files = Ok (mjoin ((λ p, hashlib.md5 (content fs p)) <$> files)).
Proof.
  induction 1 as [|p files Hp _ IH]; [done|].
  cbn [digests]. rewrite (checksum_file_File _ _ (content fs p))
    by (by apply is_file_content).
  cbn [mbind result_bind]. by rewrite IH.
Qed.



(** X2: on a path in normal form without wildcard characters,
    [checksum] returns a
    value exactly when the index, every data file and every sidecar is a
    file; the value is then the hexadecimal MD5 of the MD5 digests of
    those files, in the order index, then each data file of the sorted
    list followed by its sidecar. *)
Theorem checksum_succeeds_iff_all_files fs self :
  normal (path self) → glob.has_magic (path self) = false →
  let files := constituents (path self) (entry_names fs self) in
  (is_ok (checksum fs self) = true ↔ Forall (λ p, is_file fs p = true) files) ∧
  (Forall (λ p, is_file fs p = true) files →
   checksum fs self
   = Ok (hashlib.hex (hashlib.md5
           (mjoin ((λ p, hashlib.md5 (content fs p)) <$> files))))).
Proof.
  intros _ _ files. rewrite checksum_digests. fold files. split.
  - split.
    + intros Hok. apply Forall_forall. intros p Hp.
      destruct (is_file fs p) eqn:E; [done|].
      assert (is_ok (digests fs files) = false) as Hno.
      { apply (digests_not_file fs files p Hp).
        intros bs Hbs. unfold is_file in E. by rewrite Hbs in E. }
      by destruct (digests fs files).
    + intros Hall. by rewrite digests_files.
  - intros Hall. by rewrite digests_files.
Qed.


End Reading.

(** ** More on file systems and paths *)

Section MorePaths.
Implicit Types (fs : FS) (p k d n s t : string) (x : node).

Lemma set_absent fs p x : os.lookup fs p = None → os.set fs p x = fs ++ [(p, x)].
Proof.
  induction fs as [|[k y] fs IH]; simpl; [done|].
  destruct (String.eqb k p); [done|]. intros H. by rewrite IH.
Qed.

Lemma set_set fs p x y : os.set (os.set fs p x) p y = os.set fs p y.
Proof.
  induction fs as [|[k z] fs IH]; simpl.
  - by rewrite String.eqb_refl.
  - destruct (String.eqb k p) eqn:E; simpl; rewrite E; [done|].
    by rewrite IH.
Qed.

Lemma lookup_app fs1 fs2 p :
  os.lookup (fs1 ++ fs2) p =
    match os.lookup fs1 p with
    | Some x => Some x
    | None => os.lookup fs2 p
    end.
Proof.
  induction fs1 as [|[k y] fs1 IH]; simpl; [done|].
  by destruct (String.eqb k p).
Qed.

Lemma lookup_cleared fs p k :
  os.lookup (filter (λ e, negb (os.below p e.1)) fs) k
  = if os.below p k then None else os.lookup fs k.
Proof.
  induction fs as [|[q y] fs IH].
  - simpl. by destruct (os.below p k).
  - unfold filter. cbn [list_filter fst]. destruct (os.below p q) eqn:Eq.
    + rewrite decide_False by (by intros ?). etrans; [apply IH|].
      cbn [os.lookup]. destruct (String.eqb_spec q k) as [->|_]; [|done].
      by rewrite Eq.
    + rewrite decide_True by done. cbn [os.lookup].
      destruct (String.eqb_spec q k) as [->|_]; [by rewrite Eq|]. apply IH.
Qed.

Lemma cleared_id fs p :
  (∀ k, os.below p k = true → os.lookup fs k = None) →
  filter (λ e, negb (os.below p e.1)) fs = fs.
Proof.
  induction fs as [|[q y] fs IH]; intros H; [done|].
  unfold filter. cbn [list_filter fst]. destruct (os.below p q) eqn:Eq.
  - specialize (H q Eq). cbn [os.lookup] in H.
    by rewrite String.eqb_refl in H.
  - rewrite decide_True by done. f_equal. apply IH.
    intros k Hk. specialize (H k Hk). cbn [os.lookup] in H.
    by destruct (String.eqb q k).
Qed.

Lemma startswith_app p s : os.startswith p (p +:+ s) = true.
Proof.
  induction p as [|a p IH]; simpl; [by destruct s|].
  by rewrite Ascii.eqb_refl, IH.
Qed.

Lemma below_dirpath p k :
  p ≠ "" → os.below p k = String.eqb k p || os.startswith (dirpath p) k.
Proof.
  intros Hp. unfold os.below, dirpath.
  by apply String.eqb_neq in Hp as ->.
Qed.

Lemma below_self p : os.below p p = true.
Proof. unfold os.below. by rewrite String.eqb_refl. Qed.

Lemma below_join p t :
  p ≠ "" → os.startswith "/" t = false → os.below p (os.join p t) = true.
Proof.
  intros Hp Ht. rewrite below_dirpath, join_relative by done.
  by rewrite startswith_app, orb_true_r.
Qed.

Lemma join_relative_neq_dir p t :
  os.startswith "/" t = false → t ≠ "" → os.join p t ≠ p.
Proof.
  intros Ht Hne. rewrite join_relative by done. unfold dirpath.
  destruct (String.eqb p "" || os.endswith_slash p).
  - by apply append_neq_self.
  - rewrite append_assoc. by apply append_neq_self.
Qed.

(** A probe of a table never is the index file. *)
Lemma probe_neq_index d name ext :
  ext = "feather" ∨ ext = "csv" →
  os.join d (name +:+ String "." ext) ≠ os.join d "index.json".
Proof.
  intros Hext E. rewrite (join_name d "index.json") in E by done.
  change "index.json" with ("index" +:+ String "." "json") in E.
  rewrite <- append_assoc in E.
  destruct (os.startswith "/" (name +:+ String "." ext)) eqn:Es.
  - unfold os.join in E. rewrite Es in E.
    apply extension_inj in E as [_ E]; by destruct Hext as [->| ->].
  - rewrite join_relative, <- append_assoc in E by done.
    apply extension_inj in E as [_ E]; by destruct Hext as [->| ->].
Qed.

Lemma startswith_slash_app name t :
  os.startswith "/" name = true → os.startswith "/" (name +:+ t) = true.
Proof. destruct name as [|a name]; [done|]. simpl. by rewrite !andb_true_r. Qed.

Lemma join_absolute d t : os.startswith "/" t = true → os.join d t = t.
Proof. intros Ht. unfold os.join. by rewrite Ht. Qed.

End MorePaths.

(** ** Creating, in full *)

Section CreatingInFull.
Context {DatasetMeta : Type} `{!MetaCodec DatasetMeta}.
Implicit Types (fs : FS) (p k : string) (ds : Dataset DatasetMeta).
Implicit Types (metadata : option DatasetMeta).

Lemma mkdir_absent fs p :
  os.lookup fs p = None →
  os.mkdir fs p
  = if String.eqb p "" || negb (os.parent_ok fs p)
    then Raise (FileNotFoundError p) else Ok (fs ++ [(p, Dir)]).
Proof.
  intros Hp. unfold os.mkdir, os.exists_. rewrite Hp.
  destruct (String.eqb p "" || negb (os.parent_ok fs p)); [done|].
  by rewrite set_absent.
Qed.

Lemma write_absent fs p bs :
  os.lookup fs p = None →
  os.write_file fs p bs
  = if os.parent_ok fs p then Ok (fs ++ [(p, File bs)])
    else Raise (FileNotFoundError p).
Proof.
  intros Hp. unfold os.write_file. rewrite Hp.
  destruct (os.parent_ok fs p); [|done]. by rewrite set_absent.
Qed.

(** What [create_empty] does once the path is clear. *)
Lemma create_empty_unfold p metadata fs :
  create_empty p metadata fs
  = let build : IO (Dataset DatasetMeta) :=
      io_write (λ fs, os.mkdir fs p);;
      io_write (meta_save default_meta (os.join p "index.json"));;
      io_read (λ fs, __init__ fs p) in
    if os.isdir fs p then
      if os.exists_ fs (os.join p "index.json") then
        build (filter (λ e, negb (os.below p e.1)) fs)
      else (Raise (Exception ("refuse to overwrite non-dataset dir at: " +:+ p)),
            fs)
    else build fs.
Proof.
  unfold create_empty, mbind, IO_bind, io_test, io_write, io_raise, mret, IO_ret.
  unfold os.rmtree.
  destruct (os.isdir fs p) eqn:Hd; [|done].
  destruct (os.exists_ fs (os.join p "index.json")) eqn:He; cbn beta iota;
    [|done].
  cbn [negb]. cbn beta iota. by rewrite Hd.
Qed.

Lemma build_clear p fs :
  os.lookup fs p = None → os.lookup fs (os.join p "index.json") = None →
  (io_write (λ fs, os.mkdir fs p);;
   io_write (meta_save default_meta (os.join p "index.json"));;
   io_read (λ fs, __init__ fs p)) fs
  = if String.eqb p "" || negb (os.parent_ok fs p)
    then (Raise (FileNotFoundError p), fs)
    else if os.parent_ok (fs ++ [(p, Dir)]) (os.join p "index.json")
    then (decoded (os.join p "index.json")
            (parse_meta (meta_bytes default_meta))
          ≫= λ m, Ok {| path := p; metadata := m |},
          fs ++ [(p, Dir);
                 (os.join p "index.json", File (meta_bytes default_meta))])
    else (Raise (FileNotFoundError (os.join p "index.json")),
          fs ++ [(p, Dir)]).
Proof.
  intros Hp Hi. unfold mbind at 1 2, IO_bind, io_write, io_read.
  rewrite mkdir_absent by done.
  destruct (String.eqb p "" || negb (os.parent_ok fs p)); [done|].
  unfold meta_save. rewrite write_absent.
  2:{ rewrite lookup_app, Hi. cbn [os.lookup].
      destruct (String.eqb_spec p (os.join p "index.json")) as [E|_]; [|done].
      symmetry in E. by apply join_neq_dir in E. }
  destruct (os.parent_ok (fs ++ [(p, Dir)]) (os.join p "index.json")); [|done].
  rewrite <- app_assoc. cbn [app]. f_equal.
  unfold __init__, meta_load, os.open_rb.
  rewrite lookup_app, Hi. cbn [os.lookup].
  destruct (String.eqb_spec p (os.join p "index.json")) as [E|_].
  { symmetry in E. by apply join_neq_dir in E. }
  by rewrite String.eqb_refl.
Qed.

Lemma build_needs_mkdir p fs ds fs' :
  (io_write (λ fs, os.mkdir fs p);;
   io_write (meta_save default_meta (os.join p "index.json"));;
   io_read (λ fs, __init__ fs p)) fs = (Ok ds, fs') →
  is_ok (os.mkdir fs p) = true.
Proof.
  unfold mbind at 1, IO_bind, io_write. by destruct (os.mkdir fs p).
Qed.

Lemma mkdir_empty_path fs : is_ok (os.mkdir fs "") = false.
Proof. unfold os.mkdir. by destruct (os.exists_ fs ""). Qed.

Lemma startswith_longer h t : t ≠ "" → os.startswith (h +:+ t) h = false.
Proof.
  intros Ht. induction h as [|a h IH]; simpl; [by destruct t|].
  by rewrite IH, andb_false_r.
Qed.

Lemma canonical_join p t :
  canonical p → os.startswith "/" t = false → os.join p t = p +:+ "/" +:+ t.
Proof.
  intros [Hne Hs] Ht. unfold os.join. rewrite Ht, Hs.
  by apply String.eqb_neq in Hne as ->.
Qed.

Lemma dirname_index p : canonical p → os.dirname (os.join p "index.json") = p.
Proof.
  intros Hp. rewrite canonical_join by done.
  change ("/" +:+ "index.json") with (String "/" "index.json").
  unfold os.dirname. rewrite (rsplit_app "/" p "index.json") by done.
  destruct Hp as [Hne _]. by destruct p.
Qed.

Lemma not_below_dirname p :
  canonical p → os.dirname p ≠ "/" → os.below p (os.dirname p) = false.
Proof.
  intros [Hne Hs] Hroot. unfold os.below. rewrite Hs. unfold os.dirname in *.
  destruct (os.rsplit "/" p) as [[h t]|] eqn:E.
  - apply rsplit_Some in E as [-> _]. destruct h as [|a h]; [done|].
    apply orb_false_iff. split.
    + apply String.eqb_neq. intros E. symmetry in E.
      by apply append_neq_self in E.
    + rewrite append_assoc. by apply startswith_longer.
  - apply orb_false_iff. split; [by apply String.eqb_neq|].
    by destruct p.
Qed.

Lemma parent_ok_cleared fs p :
  canonical p →
  os.parent_ok (filter (λ e, negb (os.below p e.1)) fs) p = os.parent_ok fs p.
Proof.
  intros Hp. unfold os.parent_ok, os.isdir.
  destruct (String.eqb_spec (os.dirname p) "/") as [->|Hroot]; [done|].
  by rewrite lookup_cleared, not_below_dirname.
Qed.

Lemma parent_ok_index fs p :
  canonical p → os.lookup fs p = None →
  os.parent_ok (fs ++ [(p, Dir)]) (os.join p "index.json") = true.
Proof.
  intros Hp Hnone. unfold os.parent_ok, os.isdir.
  rewrite dirname_index, lookup_app, Hnone by done. cbn [os.lookup].
  by rewrite String.eqb_refl, orb_true_r.
Qed.

(** Whenever [create_empty] succeeds on a directory, or on a path with
    nothing at or below it, it leaves [created]. *)
Lemma create_empty_success p metadata fs ds fs' :
  create_empty p metadata fs = (Ok ds, fs') →
  os.isdir fs p = true ∨ (∀ k, os.below p k = true → os.lookup fs k = None) →
  fs' = created fs p ∧ path ds = p ∧ p ≠ "".
Proof.
  rewrite create_empty_unfold. cbn zeta. intros Hrun Hcase.
  assert (p ≠ "") as Hne.
  { intros ->. destruct (os.isdir fs ""); [|
      apply build_needs_mkdir in Hrun; by rewrite mkdir_empty_path in Hrun].
    destruct (os.exists_ fs (os.join "" "index.json")); [|done].
    apply build_needs_mkdir in Hrun. by rewrite mkdir_empty_path in Hrun. }
  assert (∀ fs0, os.lookup fs0 p = None →
            os.lookup fs0 (os.join p "index.json") = None →
            (io_write (λ fs, os.mkdir fs p);;
             io_write (meta_save default_meta (os.join p "index.json"));;
             io_read (λ fs, __init__ fs p)) fs0 = (Ok ds, fs') →
            fs' = fs0 ++ [(p, Dir); (os.join p "index.json",
                                     File (meta_bytes default_meta))]
            ∧ path ds = p) as Hbuild.
  { intros fs0 H1 H2. rewrite build_clear by done.
    destruct (String.eqb p "" || negb (os.parent_ok fs0 p)); [done|].
    destruct (os.parent_ok (fs0 ++ [(p, Dir)]) (os.join p "index.json"));
      [|done].
    destruct (parse_meta (meta_bytes default_meta)) as [m|]; [|done].
    by intros [= <- <-]. }
  destruct (os.isdir fs p) eqn:Hd.
  - destruct (os.exists_ fs (os.join p "index.json")); [|done].
    apply Hbuild in Hrun as [-> Hds]; [done|..].
    + by rewrite lookup_cleared, below_self.
    + by rewrite lookup_cleared, below_join.
  - destruct Hcase as [?|Hclear]; [done|].
    apply Hbuild in Hrun as [-> Hds].
    + unfold created. by rewrite cleared_id.
    + apply Hclear, below_self.
    + by apply Hclear, below_join.
Qed.

Lemma created_lookup fs p k :
  p ≠ "" →
  os.lookup (created fs p) k
  = if String.eqb p k then Some Dir
    else if String.eqb (os.join p "index.json") k
         then Some (File (meta_bytes default_meta))
    else if os.below p k then None else os.lookup fs k.
Proof.
  intros Hne. unfold created. rewrite lookup_app, lookup_cleared.
  cbn [os.lookup].
  destruct (String.eqb_spec p k) as [<-|Hpk].
  { by rewrite below_self. }
  destruct (String.eqb_spec (os.join p "index.json") k) as [<-|Hik].
  { by rewrite below_join. }
  destruct (os.below p k); [done|]. by destruct (os.lookup fs k).
Qed.

Lemma created_data_files fs p ds :
  p ≠ "" → path ds = p → _data_files (created fs p) ds = [].
Proof.
  intros Hne Hds. apply elem_of_nil_inv.
  intros k (Hex & n & Hn & ->)%elem_of_data_files.
  rewrite Hds in Hex. unfold os.exists_ in Hex.
  rewrite created_lookup in Hex by done.
  pose proof (data_name_is_name n Hn) as Hname.
  pose proof Hn as (Hs & _).
  destruct (String.eqb_spec p (os.join p n)) as [E|_].
  { symmetry in E. by apply join_neq_dir in E. }
  destruct (String.eqb_spec (os.join p "index.json") (os.join p n)) as [E|_].
  { apply join_name_inj in E; [|done..]. subst n.
    by apply data_nameb_spec in Hn. }
  rewrite below_join in Hex; [done..|].
  destruct (os.startswith "/" n) eqn:Es; [|done].
  apply startswith_slash in Es. congruence.
Qed.

(** X4: on a path with nothing at or below it, whose parent exists,
    [create_empty] adds the directory and its index file, holding the
    default document, after the entries that were there, and returns a
    handle on the path with the default metadata.  The path is in normal
    form, without [.] or [..], and the metadata codec is taken to decode
    the default document it encodes. *)
Theorem create_empty_on_fresh_path fs p metadata :
  normal p → os.parent_ok fs p = true →
  (∀ k, os.below p k = true → os.lookup fs k = None) →
  parse_meta (meta_bytes default_meta) = Some default_meta →
  create_empty p metadata fs
  = (Ok {| path := p; metadata := default_meta |},
     fs ++ [(p, Dir);
            (os.join p "index.json", File (meta_bytes default_meta))]).
Proof.
  intros [Hp _] Hparent Hclear Hround. pose proof Hp as [Hne _].
  assert (os.lookup fs p = None) as Hnone by apply Hclear, below_self.
  rewrite create_empty_unfold. cbn zeta. unfold os.isdir. rewrite Hnone.
  rewrite build_clear; [|done|by apply Hclear, below_join].
  rewrite Hparent, parent_ok_index, Hround by done.
  by apply String.eqb_neq in Hne as ->.
Qed.

(** X5: on a directory that holds an index file, [create_empty] removes
    the directory with all below it and builds it anew: what is left is
    the entries outside the directory, then the directory and an index
    file holding the default document; the handle has the default
    metadata. *)
Theorem create_empty_resets_valid_store fs p metadata :
  canonical p → os.parent_ok fs p = true →
  os.isdir fs p = true → os.exists_ fs (os.join p "index.json") = true →
  parse_meta (meta_bytes default_meta) = Some default_meta →
  create_empty p metadata fs
  = (Ok {| path := p; metadata := default_meta |}, created fs p).
Proof.
  intros Hp Hparent Hdir Hindex Hround. pose proof Hp as [Hne _].
  rewrite create_empty_unfold. cbn zeta. rewrite Hdir, Hindex.
  rewrite build_clear.
  2:{ by rewrite lookup_cleared, below_self. }
  2:{ by rewrite lookup_cleared, below_join. }
  rewrite parent_ok_cleared, Hparent, parent_ok_index, Hround; try done.
  - by apply String.eqb_neq in Hne as ->.
  - by rewrite lookup_cleared, below_self.
Qed.

(** X6: after a [create_empty] that succeeded, on a directory or on a
    path with nothing at or below it, the store is empty: [len] is zero,
    [contains] is false of every relative name that does not step up
    with [..], and every entry that is not at or below the path is as it
    was.  The path is in normal form and has no wildcard characters. *)
Theorem create_empty_leaves_empty_store fs p metadata ds fs' :
  normal p → glob.has_magic p = false →
  create_empty p metadata fs = (Ok ds, fs') →
  os.isdir fs p = true ∨ (∀ k, os.below p k = true → os.lookup fs k = None) →
  path ds = p ∧
  __len__ fs' ds = 0 ∧
  (∀ name, os.startswith "/" name = false → stays_below name →
     __contains__ fs' ds name = false) ∧
  (∀ k, os.below p k = false → os.lookup fs' k = os.lookup fs k).
Proof.
  intros _ _ Hrun Hcase.
  destruct (create_empty_success _ _ _ _ _ Hrun Hcase) as (-> & Hds & Hne).
  split_and!; [done| | |].
  - unfold __len__. by rewrite created_data_files.
  - intros name Hrel _. unfold __contains__, os.exists_. rewrite Hds.
    assert (∀ ext, ext = "feather" ∨ ext = "csv" →
              os.lookup (created fs p) (os.join p (name +:+ String "." ext))
              = None) as Hprobe.
    { intros ext Hext.
      assert (os.startswith "/" (name +:+ String "." ext) = false) as Hr.
      { destruct name as [|a name]; [done|]. simpl in *. done. }
      rewrite created_lookup by done.
      destruct (String.eqb_spec p (os.join p (name +:+ String "." ext)))
        as [E|_].
      { symmetry in E. apply join_relative_neq_dir in E; [done..|].
        by intros [_ ?]%append_eq_nil. }
      destruct (String.eqb_spec (os.join p "index.json")
                  (os.join p (name +:+ String "." ext))) as [E|_].
      { symmetry in E. by apply probe_neq_index in E. }
      by rewrite below_join. }
    rewrite (Hprobe "feather"), (Hprobe "csv") by auto. done.
  - intros k Hk. rewrite created_lookup by done.
    destruct (String.eqb_spec p k) as [<-|_]; [by rewrite below_self in Hk|].
    destruct (String.eqb_spec (os.join p "index.json") k) as [<-|_].
    { by rewrite below_join in Hk. }
    by rewrite Hk.
Qed.

(** X7: the checksum of a store that [create_empty] has just made, on a
    path in normal form without wildcard characters, is the hexadecimal
    MD5 of the MD5 of the default index document: no table enters it. *)
Theorem checksum_of_created_store fs p metadata ds fs' :
  normal p → glob.has_magic p = false →
  create_empty p metadata fs = (Ok ds, fs') →
  os.isdir fs p = true ∨ (∀ k, os.below p k = true → os.lookup fs k = None) →
  checksum fs' ds
  = Ok (hashlib.hex (hashlib.md5 (hashlib.md5 (meta_bytes default_meta)))).
Proof.
  intros _ _ Hrun Hcase.
  destruct (create_empty_success _ _ _ _ _ Hrun Hcase) as (-> & Hds & Hne).
  rewrite checksum_digests. unfold entry_names.
  rewrite created_data_files by done. rewrite Hds.
  change (constituents p (_ <$> [])) with [os.join p "index.json"].
  cbn [digests].
  rewrite (checksum_file_File _ _ (meta_bytes default_meta)).
  - cbn [mbind result_bind]. unfold hashlib.digest. by rewrite app_nil_r.
  - rewrite created_lookup by done.
    destruct (String.eqb_spec p (os.join p "index.json")) as [E|_].
    { symmetry in E. by apply join_neq_dir in E. }
    by rewrite String.eqb_refl.
Qed.

(** X8: on a path that is not a directory, [create_empty] fails at
    [mkdir] and changes nothing: with the file-exists error when
    something is at the path, with the file-not-found error when the
    path is empty, or is in normal form with a parent that does not
    exist and no regular file above it. *)
Theorem create_empty_fails_at_mkdir fs p metadata :
  os.isdir fs p = false →
  (os.exists_ fs p = true →
     create_empty p metadata fs = (Raise (FileExistsError p), fs)) ∧
  (os.exists_ fs p = false →
   p = "" ∨ (normal p ∧ os.parent_ok fs p = false ∧
             os.exists_ fs (os.dirname p) = false ∧
             ∀ k, os.below k p = true → is_file fs k = false) →
     create_empty p metadata fs = (Raise (FileNotFoundError p), fs)).
Proof.
  intros Hd. rewrite create_empty_unfold. cbn zeta. rewrite Hd.
  split; unfold mbind at 1, IO_bind, io_write, os.mkdir.
  - by intros ->.
  - intros Hex [->|(_ & Hparent & _)]; rewrite Hex; [done|].
    by rewrite Hparent, orb_true_r.
Qed.

End CreatingInFull.

(** ** Adding, in full *)

Section AddingInFull.
Context {Table : Type} `{!TableCodec Table}.
Context {DatasetMeta : Type}.
Implicit Types (fs : FS) (self : Dataset DatasetMeta) (table : Table).
Implicit Types (name format k d lit : string).

Lemma sorted_length (l : list string) : length (sorted l) = length l.
Proof. unfold sorted. by rewrite merge_sort_Permutation. Qed.

Lemma matches_spec d lit k :
  wild_free lit = true → os.occurs "/" lit = false → lit ≠ "" →
  glob.matches (os.join d (String "*" lit)) k = true ↔
  ∃ n, k = os.join d n ∧ os.occurs "/" n = false ∧
       glob.ishidden n = false ∧ ∃ stem, n = stem +:+ lit.
Proof.
  intros Hw Hl Hne.
  pose proof (elem_of_glob [(k, Dir)] d lit k Hw Hl Hne) as H.
  unfold glob.glob in H. rewrite list_elem_of_filter in H.
  cbn [os.keys map fst] in H. rewrite list_elem_of_singleton in H.
  tauto.
Qed.

Lemma glob_set_present fs pat k x :
  os.exists_ fs k = true → glob.glob (os.set fs k x) pat = glob.glob fs pat.
Proof. intros Hk. unfold glob.glob. by rewrite keys_set, Hk. Qed.

Lemma glob_set_absent fs pat k x :
  os.exists_ fs k = false →
  glob.glob (os.set fs k x) pat
  = glob.glob fs pat ++ (if glob.matches pat k then [k] else []).
Proof.
  intros Hk. unfold glob.glob. rewrite keys_set, Hk, filter_app.
  f_equal. unfold filter. cbn [list_filter].
  destruct (glob.matches pat k) eqn:E.
  - by rewrite decide_True.
  - by rewrite decide_False.
Qed.

(** The file of a table with a visible name matches the pattern of its
    format and not the other. *)
Lemma target_matches d name format lit :
  os.is_name name = true → glob.ishidden name = false →
  format = "feather" ∨ format = "csv" → lit = ".feather" ∨ lit = ".csv" →
  glob.matches (os.join d (String "*" lit)) (os.join d (name +:+ "." +:+ format))
  = String.eqb lit ("." +:+ format).
Proof.
  intros [Hne Hs]%is_name_spec Hh Hf Hl.
  assert (os.occurs "/" (name +:+ "." +:+ format) = false) as Hsl.
  { rewrite occurs_app, Hs. by destruct Hf as [->| ->]. }
  destruct (String.eqb_spec lit ("." +:+ format)) as [->|Hdiff].
  - apply matches_spec; [by destruct Hf as [->| ->]..|].
    exists (name +:+ "." +:+ format). split_and!; [done..| |by exists name].
    by rewrite hidden_append.
  - apply not_true_is_false. intros Hm.
    apply matches_spec in Hm; [|by destruct Hl as [->| ->]..].
    destruct Hm as (n & E & Hn & _ & stem & ->).
    rewrite !join_name in E by done. apply append_inj_r in E.
    destruct Hf as [->| ->], Hl as [->| ->]; try done;
      by apply extension_inj in E as [_ ?].
Qed.

Lemma hidden_target_matches d name format lit :
  os.occurs "/" name = false → name = "" ∨ glob.ishidden name = true →
  format = "feather" ∨ format = "csv" → lit = ".feather" ∨ lit = ".csv" →
  glob.matches (os.join d (String "*" lit)) (os.join d (name +:+ "." +:+ format))
  = false.
Proof.
  intros Hs Hh Hf Hl. apply not_true_is_false. intros Hm.
  apply matches_spec in Hm; [|by destruct Hl as [->| ->]..].
  destruct Hm as (n & E & Hn & Hvis & _).
  assert (os.occurs "/" (name +:+ "." +:+ format) = false) as Hsl.
  { rewrite occurs_app, Hs. by destruct Hf as [->| ->]. }
  rewrite !join_name in E by done. apply append_inj_r in E. subst n.
  destruct Hh as [->|Hh]; [done|].
  assert (name ≠ "") as Hne by (by intros ->).
  rewrite hidden_append in Hvis by done. congruence.
Qed.

(** X9: a format other than [feather] and [csv] is refused with the
    format exception and nothing is written, whatever the table, named
    or not. *)
Theorem add_rejects_unsupported_format fs self table format :
  format ≠ "feather" → format ≠ "csv" →
  add self table format fs
  = (Raise (Exception ("Format '" +:+ format +:+ "'' is not supported")), fs).
Proof.
  intros Hf Hc. unfold add. rewrite bool_decide_eq_false_2; [done|].
  intros [->|[->|[]%elem_of_nil]%elem_of_cons]%elem_of_cons; done.
Qed.

(** X10: the last writer wins: adding a table and then another of the
    same name in the same format leaves what adding the second alone
    leaves, with the same result. *)
Theorem add_last_writer_wins fs self (t1 t2 : Table) format name :
  format = "feather" ∨ format = "csv" →
  checked_name t1 = Ok name → checked_name t2 = Ok name →
  (add self t1 format;; add self t2 format) fs = add self t2 format fs.
Proof.
  intros Hf H1 H2. unfold mbind, IO_bind.
  rewrite !(add_supported _ _ _ _ name) by done.
  unfold io_write, os.write_file.
  set (target := os.join (path self) (name +:+ "." +:+ format)).
  destruct (os.lookup fs target) as [[old|]|] eqn:E; [| done |].
  - rewrite (add_supported _ _ _ _ name) by done.
    unfold io_write, os.write_file. fold target.
    by rewrite lookup_set, String.eqb_refl, set_set.
  - destruct (os.parent_ok fs target); [|done].
    rewrite (add_supported _ _ _ _ name) by done.
    unfold io_write, os.write_file. fold target.
    by rewrite lookup_set, String.eqb_refl, set_set.
Qed.

(** X11: in a dataset whose path is in normal form and has no wildcard
    characters, after a
    table with a visible name is added, its file is among the data
    files, and [len] has grown by one when the file is new and is
    unchanged when the file was there. *)
Theorem add_counts_new_table fs fs' self table format name :
  normal (path self) → glob.has_magic (path self) = false →
  format = "feather" ∨ format = "csv" →
  checked_name table = Ok name →
  os.is_name name = true → glob.ishidden name = false →
  add self table format fs = (Ok tt, fs') →
  let target := os.join (path self) (name +:+ "." +:+ format) in
  target ∈ _data_files fs' self ∧
  __len__ fs' self
  = if os.exists_ fs target then __len__ fs self else S (__len__ fs self).
Proof.
  intros _ _ Hf Hn Hname Hvis Hadd target.
  destruct (add_inv _ _ _ _ _ _ _ Hf Hn Hadd) as [[_ ->]|[? _]]; [|done].
  fold target. split.
  - apply elem_of_data_files. split.
    + unfold os.exists_. by rewrite lookup_set, String.eqb_refl.
    + exists (name +:+ "." +:+ format). split; [|done].
      apply is_name_spec in Hname as [Hne Hs].
      unfold data_name. rewrite hidden_append, occurs_app, Hs by done.
      split_and!; [by destruct Hf as [->| ->]|done|].
      exists name. destruct Hf as [->| ->]; auto.
  - unfold __len__, _data_files. rewrite !sorted_length.
    destruct (os.exists_ fs target) eqn:Hex.
    + by rewrite !glob_set_present.
    + rewrite !glob_set_absent by done. unfold target.
      rewrite !target_matches by auto.
      destruct Hf as [->| ->]; cbn [String.eqb Ascii.eqb];
        rewrite !length_app; simpl; lia.
Qed.

(** X12: a table with an empty or a hidden name is stored and found by
    [contains], and is never enumerated: the data files, hence [len],
    iteration and the checksum, are as before. *)
Theorem add_hidden_name_is_not_enumerated fs fs' self table format name :
  format = "feather" ∨ format = "csv" →
  checked_name table = Ok name →
  os.occurs "/" name = false → name = "" ∨ glob.ishidden name = true →
  add self table format fs = (Ok tt, fs') →
  _data_files fs' self = _data_files fs self ∧
  __len__ fs' self = __len__ fs self ∧
  __contains__ fs' self name = true.
Proof.
  intros Hf Hn Hs Hh Hadd.
  destruct (add_inv _ _ _ _ _ _ _ Hf Hn Hadd) as [[_ ->]|[? _]]; [|done].
  set (target := os.join (path self) (name +:+ "." +:+ format)).
  assert (_data_files (os.set fs target (File (table_bytes format table))) self
          = _data_files fs self) as Hfiles.
  { unfold _data_files. destruct (os.exists_ fs target) eqn:Hex.
    - by rewrite !glob_set_present.
    - rewrite !glob_set_absent by done. unfold target.
      rewrite !hidden_target_matches by auto. by rewrite !app_nil_r. }
  split_and!; [done|by unfold __len__; rewrite Hfiles|].
  unfold __contains__, os.exists_. rewrite !lookup_set. fold target.
  destruct Hf as [->| ->]; cbn [String.append] in *; subst target;
    rewrite String.eqb_refl; by rewrite ?orb_true_r.
Qed.

End AddingInFull.

(** ** Names, saving and opening *)

Section NamesAndSaving.
Context {Table : Type} `{!TableCodec Table}.
Context {DatasetMeta : Type} `{!MetaCodec DatasetMeta}.
Implicit Types (fs : FS) (self : Dataset DatasetMeta) (table : Table).
Implicit Types (name format k p : string).

(** X13: a name that starts with the separator is not looked for in the
    dataset directory: [join] drops the directory, so that [get],
    [contains] and [add] reach the same absolute file from every
    dataset. *)
Theorem absolute_name_escapes_directory fs (self1 self2 : Dataset DatasetMeta)
    table format name :
  os.startswith "/" name = true →
  __getitem__ fs self1 name = __getitem__ fs self2 name ∧
  __contains__ fs self1 name = __contains__ fs self2 name ∧
  (__contains__ fs self1 name
   = os.exists_ fs (name +:+ ".feather") || os.exists_ fs (name +:+ ".csv")) ∧
  (checked_name table = Ok name →
   add self1 table format fs = add self2 table format fs).
Proof.
  intros Habs.
  assert (∀ d t, os.join d (name +:+ t) = name +:+ t) as Hjoin.
  { intros d t. by apply join_absolute, startswith_slash_app. }
  unfold __getitem__, __contains__, add. rewrite !Hjoin. split_and!; [done..|].
  intros Hn. unfold mbind, IO_bind, io_read. rewrite Hn.
  by rewrite !Hjoin.
Qed.

(** X14: saving and opening again gives the handle back: after [save]
    has succeeded, [Dataset(path)] is the dataset that was saved.  The
    metadata codec is taken to decode what it encodes. *)
Theorem save_then_open fs fs' self :
  (∀ m : DatasetMeta, parse_meta (meta_bytes m) = Some m) →
  save self fs = (Ok tt, fs') →
  __init__ fs' (path self) = Ok self.
Proof.
  intros Hround. unfold save, io_write, meta_save, _index_file.
  destruct (os.write_file fs _ _) as [fs''|e] eqn:E; [|done].
  intros [= <-]. apply write_file_Ok in E as ->.
  unfold __init__, meta_load, os.open_rb.
  rewrite lookup_set, String.eqb_refl. cbn [mbind result_bind].
  rewrite Hround. by destruct self.
Qed.

(** X15: [save] touches the index file alone: whatever its result, the
    data files, [len], [contains] and [get] of every name are as before,
    and every entry but the index keeps its content. *)
Theorem save_leaves_tables fs self r fs' :
  save self fs = (r, fs') →
  (∀ p, p ≠ _index_file self → os.lookup fs' p = os.lookup fs p) ∧
  _data_files fs' self = _data_files fs self ∧
  __len__ fs' self = __len__ fs self ∧
  (∀ name, __contains__ fs' self name = __contains__ fs self name) ∧
  (∀ name, __getitem__ (Table := Table) fs' self name = __getitem__ fs self name).
Proof.
  unfold save, io_write, meta_save.
  destruct (os.write_file fs _ _) as [fs''|e] eqn:E; [|by intros [= <- <-]].
  intros [= <- <-]. apply write_file_Ok in E as ->.
  set (bs := meta_bytes (metadata self)).
  assert (∀ p, p ≠ _index_file self →
            os.lookup (os.set fs (_index_file self) (File bs)) p
            = os.lookup fs p) as Hframe.
  { intros p Hp. rewrite lookup_set.
    destruct (String.eqb_spec (_index_file self) p) as [E|_]; [|done].
    by destruct Hp. }
  assert (∀ name ext, ext = "feather" ∨ ext = "csv" →
            os.lookup (os.set fs (_index_file self) (File bs))
              (os.join (path self) (name +:+ String "." ext))
            = os.lookup fs (os.join (path self) (name +:+ String "." ext)))
    as Hprobe.
  { intros name ext Hext. apply Hframe. by apply probe_neq_index. }
  assert (_data_files (os.set fs (_index_file self) (File bs)) self
          = _data_files fs self) as Hfiles.
  { unfold _data_files. destruct (os.exists_ fs (_index_file self)) eqn:Hex.
    - by rewrite !glob_set_present.
    - rewrite !glob_set_absent by done.
      assert (∀ lit, lit = ".feather" ∨ lit = ".csv" →
                glob.matches (os.join (path self) (String "*" lit))
                  (_index_file self) = false) as Hm.
      { intros lit Hl. apply not_true_is_false. intros Hm.
        apply matches_spec in Hm; [|by destruct Hl as [->| ->]..].
        destruct Hm as (n & E & Hn & _ & stem & ->). unfold _index_file in E.
        rewrite !join_name in E by done. apply append_inj_r in E.
        change "index.json" with ("index" +:+ String "." "json") in E.
        destruct Hl as [->| ->]; by apply extension_inj in E as [_ ?]. }
      rewrite !Hm by auto. by rewrite !app_nil_r. }
  split_and!; [done|done|by unfold __len__; rewrite Hfiles| |].
  - intros name. unfold __contains__, os.exists_.
    by rewrite (Hprobe name "feather"), (Hprobe name "csv") by auto.
  - intros name. unfold __getitem__, os.exists_, read_feather, read_csv,
      os.open_rb.
    by rewrite (Hprobe name "feather"), (Hprobe name "csv") by auto.
Qed.

Lemma build_not_Exception p fs msg :
  ((io_write (λ fs, os.mkdir fs p);;
    io_write (meta_save default_meta (os.join p "index.json"));;
    io_read (λ fs, __init__ fs p)) fs).1 ≠ Raise (Exception msg).
Proof.
  unfold mbind at 1, IO_bind, io_write.
  destruct (os.mkdir fs p) as [fs1|e] eqn:E1.
  2:{ unfold os.mkdir in E1. destruct (os.exists_ fs p); [by injection E1 as <-|].
      destruct (String.eqb p "" || negb (os.parent_ok fs p)); [|done].
      by injection E1 as <-. }
  unfold mbind at 1, IO_bind, io_write.
  destruct (meta_save default_meta (os.join p "index.json") fs1) as [fs2|e] eqn:E2.
  2:{ unfold meta_save, os.write_file in E2.
      destruct (os.lookup fs1 (os.join p "index.json")) as [[old|]|];
        [done|by injection E2 as <-|].
      destruct (os.parent_ok fs1 (os.join p "index.json")); [done|].
      by injection E2 as <-. }
  unfold io_read, __init__, meta_load, os.open_rb. cbn [fst].
  destruct (os.lookup fs2 (os.join p "index.json")) as [[bs|]|]; [|done..].
  cbn [mbind result_bind]. by destruct (parse_meta bs).
Qed.

(** X16: for an existing directory, [create_empty] raises its refusal
    exactly when opening the directory raises the file-not-found error
    of the index file: both recognise a dataset by the same file. *)
Theorem refused_iff_cannot_be_opened fs p (metadata : option DatasetMeta) :
  os.isdir fs p = true →
  (create_empty p metadata fs).1
    = Raise (Exception ("refuse to overwrite non-dataset dir at: " +:+ p)) ↔
  __init__ fs p = Raise (FileNotFoundError (os.join p "index.json")).
Proof.
  intros Hd. rewrite create_empty_unfold. cbn zeta. rewrite Hd.
  unfold __init__, meta_load, os.open_rb, os.exists_.
  destruct (os.lookup fs (os.join p "index.json")) as [[bs|]|] eqn:E;
    [| |done].
  - split.
    + by intros H%build_not_Exception.
    + cbn [mbind result_bind]. by destruct (parse_meta bs).
  - split; [|done]. by intros H%build_not_Exception.
Qed.

(** X17: in a dataset whose path is in normal form and has no wildcard
    characters, enumeration
    and [contains] agree on the visible names: a visible name is found
    by [contains] exactly when one of its two files is among the data
    files, and every data file is the file of a visible name that
    [contains] finds. *)
Theorem contains_agrees_with_enumeration fs self :
  normal (path self) → glob.has_magic (path self) = false →
  (∀ name, os.is_name name = true → glob.ishidden name = false →
     __contains__ fs self name = true ↔
     os.join (path self) (name +:+ ".feather") ∈ _data_files fs self ∨
     os.join (path self) (name +:+ ".csv") ∈ _data_files fs self) ∧
  (∀ k, k ∈ _data_files fs self →
     ∃ name, os.is_name name = true ∧ glob.ishidden name = false ∧
       __contains__ fs self name = true ∧
       (k = os.join (path self) (name +:+ ".feather") ∨
        k = os.join (path self) (name +:+ ".csv"))).
Proof.
  assert (∀ name ext, os.is_name name = true → glob.ishidden name = false →
            ext = ".feather" ∨ ext = ".csv" → data_name (name +:+ ext))
    as Hdata.
  { intros name ext [Hne Hs]%is_name_spec Hvis Hext. unfold data_name.
    rewrite hidden_append, occurs_app, Hs by done.
    split_and!; [by destruct Hext as [->| ->]|done|].
    exists name. destruct Hext as [->| ->]; auto. }
  intros _ _. split.
  - intros name Hname Hvis. unfold __contains__.
    rewrite orb_true_iff, !elem_of_data_files. split.
    + intros [H|H]; [left|right]; (split; [done|]).
      * exists (name +:+ ".feather"). split; [|done]. apply Hdata; auto.
      * exists (name +:+ ".csv"). split; [|done]. apply Hdata; auto.
    + intros [[H _]|[H _]]; auto.
  - intros k (Hex & n & Hn & ->)%elem_of_data_files.
    destruct (data_name_stem n Hn) as (stem & ext & -> & Hne & Hs & Hext).
    destruct Hn as (_ & Hvis & _). rewrite hidden_append in Hvis by done.
    exists stem. split_and!.
    + by apply is_name_spec.
    + done.
    + unfold __contains__.
      destruct Hext as [->| ->]; rewrite Hex; by rewrite ?orb_true_r.
    + destruct Hext as [->| ->]; auto.
Qed.

(** X18: the generator raises at the first file that does not read as a
    columnar table, with the exception of that file, after the tables of
    the files before it: [list(dataset)] raises [e] exactly when some
    data file raises [e] and all before it are read. *)
Theorem iteration_raises_at_first_failure fs (gen : list string) (e : exn) :
  tolist (Table := Table) fs gen = Raise e ↔
  ∃ (before after : list string) (filename : string) (ts : list Table),
    gen = before ++ filename :: after ∧
    Forall2 (λ f t, read_feather fs f = Ok t) before ts ∧
    read_feather fs filename = Raise e.
Proof.
  induction gen as [|f gen IH]; simpl.
  - split; [done|]. intros (before & after & g & ts & H & _).
    by destruct before.
  - assert ((∃ (before after : list string) (filename : string)
               (ts : list Table),
               f :: gen = before ++ filename :: after ∧
               Forall2 (λ f t, read_feather fs f = Ok t) before ts ∧
               read_feather fs filename = Raise e) ↔
            read_feather fs f = Raise e ∨
            ∃ t, read_feather fs f = Ok t ∧ tolist fs gen = Raise e) as ->.
    { split.
      - intros (before & after & g & ts & H & Hall & Hg).
        destruct before as [|b before]; simplify_eq/=; [by left|].
        apply Forall2_cons_inv_l in Hall as (t & ts' & Ht & Hall & ->).
        right. exists t. split; [done|]. apply IH.
        by exists before, after, g, ts'.
      - intros [Hf|(t & Ht & Hrest)].
        + exists [], gen, f, []. by split_and!; [|constructor|].
        + apply IH in Hrest as (before & after & g & ts & -> & Hall & Hg).
          exists (f :: before), after, g, (t :: ts).
          split_and!; [done| |done]. by constructor. }
    destruct (read_feather fs f) as [t|e0]; simpl.
    + destruct (tolist fs gen) as [ts|e1]; simpl.
      * split; [done|]. by intros [?|(t' & _ & ?)].
      * split; [intros [= ->]; right; by exists t|].
        by intros [?|(t' & _ & ?)].
    + split; [intros [= ->]; by left|]. by intros [[= ->]|(t' & ? & _)].
Qed.

End NamesAndSaving.

(** ** Registering the metadata properties *)

Section Registering.
Implicit Types (cls : gmap string attribute) (fields : list string) (k : string).

Lemma hasattr_false cls k : hasattr cls k = false ↔ cls !! k = None.
Proof.
  unfold hasattr. rewrite bool_decide_eq_false, <- eq_None_not_Some. done.
Qed.

Lemma hasattr_true cls k : hasattr cls k = true ↔ is_Some (cls !! k).
Proof. unfold hasattr. by rewrite bool_decide_eq_true. Qed.

(** X19: the loop never replaces an attribute that the class has: in
    every outcome each attribute present before holds what it held; and
    when it raises, the message names a field that was an attribute
    already, or came twice. *)
Theorem register_fields_never_overwrites fields cls r cls' :
  register_fields fields cls = (r, cls') →
  (∀ k v, cls !! k = Some v → cls' !! k = Some v) ∧
  (∀ e, r = Raise e →
     ∃ k, k ∈ fields ∧ is_Some (cls' !! k) ∧
       e = Exception ("metadata field " +:+ dquote +:+ k +:+ dquote
                      +:+ " would overwrite a Dataset built-in")).
Proof.
  revert cls. induction fields as [|f fields IH]; intros cls; simpl.
  - intros [= <- <-]. split; [done|]. by intros e [=].
  - destruct (hasattr cls f) eqn:Hf.
    + intros [= <- <-]. split; [done|]. intros e [= <-].
      exists f. split_and!; [by left| by apply hasattr_true |done].
    + intros Hrun. apply IH in Hrun as [Hkeep Hraise]. split.
      * intros k v Hk. apply Hkeep. unfold setattr.
        rewrite lookup_insert_ne; [done|]. intros <-.
        apply hasattr_false in Hf. congruence.
      * intros e He. destruct (Hraise e He) as (k & Hk & Hsome & ->).
        exists k. split_and!; [by right|done..].
Qed.

(** X20: the loop completes exactly when the fields are distinct and
    none is an attribute of the class; every field is then bound to its
    metadata property and nothing else has changed. *)
Theorem register_fields_succeeds_iff fields cls :
  ((register_fields fields cls).1 = Ok tt ↔
     NoDup fields ∧ ∀ k, k ∈ fields → cls !! k = None) ∧
  ((register_fields fields cls).1 = Ok tt →
     ∀ k, (register_fields fields cls).2 !! k
          = if bool_decide (k ∈ fields) then Some (MetadataProperty k)
            else cls !! k).
Proof.
  revert cls. induction fields as [|f fields IH]; intros cls;
    cbn [register_fields].
  - split.
    + split; [intros _; split; [constructor|by intros k ?%elem_of_nil]|done].
    + intros _ k. cbn [snd]. case_bool_decide as Hin; [|done].
      by apply elem_of_nil in Hin.
  - destruct (hasattr cls f) eqn:Hf; cbn [fst snd].
    + split; [|done]. split; [done|]. intros [_ Hfree].
      apply hasattr_true in Hf as [v Hv]. rewrite Hfree in Hv; [done|by left].
    + apply hasattr_false in Hf.
      destruct (IH (setattr cls f (MetadataProperty f))) as [Hiff Hres].
      split.
      * rewrite Hiff, NoDup_cons. unfold setattr. split.
        -- intros [Hnd Hfree]. split_and!; [|done|].
           ++ intros Hin. specialize (Hfree f Hin).
              by rewrite lookup_insert_eq in Hfree.
           ++ intros k [->|Hk]%elem_of_cons; [done|].
              specialize (Hfree k Hk).
              destruct (decide (f = k)) as [->|Hne].
              ** by rewrite lookup_insert_eq in Hfree.
              ** by rewrite lookup_insert_ne in Hfree.
        -- intros [[Hnotin Hnd] Hfree]. split; [done|]. intros k Hk.
           rewrite lookup_insert_ne; [apply Hfree; by right|].
           by intros ->.
      * intros Hok k. rewrite (Hres Hok k). unfold setattr.
        destruct (decide (k = f)) as [->|Hne].
        -- rewrite (bool_decide_eq_true_2 (f ∈ f :: fields)) by (by left).
           apply Hiff in Hok as [_ Hfree].
           case_bool_decide as Hin; [done|]. by rewrite lookup_insert_eq.
        -- rewrite lookup_insert_ne by done.
           case_bool_decide as Hin; case_bool_decide as Hin'; try done.
           ++ destruct Hin'. by right.
           ++ apply elem_of_cons in Hin' as [->|?]; done.
Qed.

End Registering.

(** ** Worked instances of the further properties *)

Lemma checksum_succeeds_iff_all_files_witness :
  checksum (dataset_dir "d" dog_entries) dogs
  = Ok "4054c6f7787ecb7b323323155b0c0583".
Proof.
  destruct (checksum_succeeds_iff_all_files (dataset_dir "d" dog_entries) dogs)
    as [_ H]; [apply normal_d|reflexivity|].
  rewrite H; [vm_compute; reflexivity|by_computation].
Defined.


Lemma create_empty_on_fresh_path_witness :
  create_empty "data" None []
  = (Ok data,
     [("data", Dir); ("data/index.json", File (bytes_of_string "{}"))]).
Proof.
  rewrite (create_empty_on_fresh_path (DatasetMeta := list byte) [] "data" None);
    [reflexivity | apply normal_data | reflexivity | done | reflexivity].
Defined.

Lemma create_empty_resets_valid_store_witness :
  create_empty "data" None data_fs = (Ok data, created data_fs "data").
Proof.
  rewrite (create_empty_resets_valid_store
             (DatasetMeta := list byte) data_fs "data" None);
    [reflexivity | by split | reflexivity..].
Defined.

Lemma create_empty_leaves_empty_store_witness :
  __len__ (created data_fs "data") data = 0 ∧
  __contains__ (created data_fs "data") data "dog" = false.
Proof.
  destruct (create_empty_leaves_empty_store
              (DatasetMeta := list byte) data_fs "data" None data
              (created data_fs "data"))
    as (_ & Hlen & Hcontains & _);
    [apply normal_data | reflexivity | reflexivity | by left |].
  split; [exact Hlen | apply Hcontains; [reflexivity|apply stays_below_dog]].
Defined.

Lemma checksum_of_created_store_witness :
  checksum (created data_fs "data") data
  = Ok "52a640a54c0880d3e7b04709b18719c5".
Proof.
  rewrite (checksum_of_created_store
             (DatasetMeta := list byte) data_fs "data" None data
             (created data_fs "data"));
    [vm_compute; reflexivity | apply normal_data | reflexivity | reflexivity
    | by left].
Defined.

Lemma create_empty_fails_at_mkdir_witness :
  create_empty (DatasetMeta := list byte) "data" None file_fs
  = (Raise (FileExistsError "data"), file_fs) ∧
  create_empty (DatasetMeta := list byte) "new/data" None file_fs
  = (Raise (FileNotFoundError "new/data"), file_fs).
Proof.
  split.
  - destruct (create_empty_fails_at_mkdir
                (DatasetMeta := list byte) file_fs "data" None) as [H _];
      [reflexivity|].
    by apply H.
  - destruct (create_empty_fails_at_mkdir
                (DatasetMeta := list byte) file_fs "new/data" None) as [_ H];
      [reflexivity|].
    apply H; [reflexivity|]. right. split_and!; [|reflexivity|reflexivity|].
    + unfold normal, canonical. by_computation.
    + intros k Hk. unfold is_file, file_fs. cbn [os.lookup].
      destruct (String.eqb_spec "data" k) as [<-|_]; [|done].
      vm_compute in Hk. discriminate Hk.
Defined.

Lemma add_rejects_unsupported_format_witness :
  add data dog "parquet" data_fs
  = (Raise (Exception "Format 'parquet'' is not supported"), data_fs).
Proof. by apply (add_rejects_unsupported_format data_fs data dog "parquet"). Defined.

Lemma add_last_writer_wins_witness :
  (add data old_dog "feather";; add data dog "feather") empty_fs
  = add data dog "feather" empty_fs.
Proof.
  apply (add_last_writer_wins empty_fs data old_dog dog "feather" "dog");
    [by left | reflexivity | reflexivity].
Defined.

Lemma add_counts_new_table_witness :
  "data/dog.csv" ∈ _data_files csv_fs data ∧ __len__ csv_fs data = 1.
Proof.
  destruct (add_counts_new_table empty_fs csv_fs data dog "csv" "dog")
    as [Hin Hlen]; [apply normal_data | reflexivity | by right | reflexivity..|].
  split; [exact Hin | exact Hlen].
Defined.

Lemma add_hidden_name_is_not_enumerated_witness :
  _data_files hidden_fs data = _data_files empty_fs data ∧
  __contains__ hidden_fs data ".dog" = true.
Proof.
  destruct (add_hidden_name_is_not_enumerated
              empty_fs hidden_fs data hidden_dog "feather" ".dog")
    as (Hfiles & _ & Hc);
    [by left | reflexivity | reflexivity | by right | reflexivity |].
  by split.
Defined.

Lemma absolute_name_escapes_directory_witness :
  __contains__ data_fs data "/tmp/dog" = __contains__ data_fs other "/tmp/dog" ∧
  add data stray_dog "csv" data_fs = add other stray_dog "csv" data_fs.
Proof.
  destruct (absolute_name_escapes_directory
              data_fs data other stray_dog "csv" "/tmp/dog")
    as (_ & Hc & _ & Hadd); [reflexivity|].
  split; [exact Hc | by apply Hadd].
Defined.

Lemma save_then_open_witness :
  __init__ (os.set empty_fs "data/index.json" (File (metadata titled))) "data"
  = Ok titled.
Proof.
  apply (save_then_open (DatasetMeta := list byte) empty_fs _ titled);
    [done | reflexivity].
Defined.

Lemma save_leaves_tables_witness :
  _data_files titled_fs titled = _data_files data_fs titled ∧
  __getitem__ titled_fs titled "dog" = Ok old_dog.
Proof.
  destruct (save_leaves_tables (Table := sample.table)
              data_fs titled (Ok tt) titled_fs)
    as (_ & Hfiles & _ & _ & Hget); [reflexivity|].
  split; [exact Hfiles | by rewrite Hget].
Defined.

Lemma contains_agrees_with_enumeration_witness :
  __contains__ data_fs data "dog" = true ↔
  "data/dog.feather" ∈ _data_files data_fs data ∨
  "data/dog.csv" ∈ _data_files data_fs data.
Proof.
  destruct (contains_agrees_with_enumeration data_fs data) as [H _];
    [apply normal_data|reflexivity|].
  apply (H "dog"); reflexivity.
Defined.

Lemma refused_iff_cannot_be_opened_witness :
  __init__ (DatasetMeta := list byte) notes_fs "data"
  = Raise (FileNotFoundError "data/index.json").
Proof.
  apply (refused_iff_cannot_be_opened
           (DatasetMeta := list byte) notes_fs "data" None);
    reflexivity.
Defined.

Lemma register_fields_never_overwrites_witness :
  (register_fields ["title"; "checksum"; "description"] sample_class).2
    !! "checksum"
  = Some Builtin.
Proof.
  destruct (register_fields_never_overwrites
              ["title"; "checksum"; "description"] sample_class
              (register_fields ["title"; "checksum"; "description"] sample_class).1
              (register_fields ["title"; "checksum"; "description"] sample_class).2)
    as [Hkeep _]; [by destruct (register_fields _ _)|].
  by apply Hkeep.
Defined.
